(** * heatmap.py: building-density heat map of Nizhny Novgorod

    A shallow embedding of [heatmap.py] and the properties of its parser,
    boundary resolver and map assembly.

    Conventions of the embedding.
    - Values produced by [json.load] and [pandas.read_csv] are Python objects
      ([pyval]).  A [dict] is an association list in insertion order;
      [json.load] yields distinct keys, and look-up reads the first binding.
    - A Python [float] is an IEEE 754 binary64 number, [spec_float] of the
      Standard Library with precision 53 and maximal exponent 1024; [SF2Q]
      reads the rational number it denotes.
    - A [str] is a Rocq [string] holding the UTF-8 bytes of the text.
    - A Python exception is a value of [exn]; code that may raise returns a
      [result].  The script itself runs in the monad [M], which threads the
      console output, the map under construction and the files written.
    - The collaborators whose failures the script handles or leaves fatal
      are fields of [World] and may return or raise: reading the GeoJSON
      file, the OSM look-up, reading a CSV file, and the checks pandas and
      folium run on the data they are given ([pd.DataFrame], [HeatMap],
      [folium.Marker]).  The other calls into folium ([Map], [FeatureGroup],
      [GeoJson], [add_child], [LayerControl], [save]) are taken to return
      and are recorded by their arguments.
    - [int] of a text reads ASCII digits and ASCII white space; digits of
      other scripts and the interpreter's limit on the number of digits of
      such a text are not modelled. *)

From Stdlib Require Import ZArith QArith Qpower List String Ascii Bool Lia.
From Stdlib Require Import SpecFloat.
Import ListNotations.

Open Scope string_scope.
Open Scope list_scope.
Open Scope Z_scope.

(** ** Python objects and exceptions *)

Module Py.

#[local] Set Warnings "-register-all".

Inductive pyval : Type :=
| PNone
| PBool (b : bool)
| PInt (z : Z)
| PFloat (f : spec_float)
| PStr (s : string)
| PList (l : list pyval)
| PDict (d : list (string * pyval)).

(** The exception classes the script can meet.  Every one of them derives
    from [Exception]; [OtherError] stands for any further such class. *)
Inductive exn : Type :=
| FileNotFoundError
| ValueError
| TypeError
| KeyError
| AttributeError
| OverflowError
| OtherError (name : string).

Inductive result (A : Type) : Type :=
| Ok (a : A)
| Raise (e : exn).
Arguments Ok {A} a.
Arguments Raise {A} e.

Definition bind {A B} (r : result A) (k : A -> result B) : result B :=
  match r with
  | Ok a => k a
  | Raise e => Raise e
  end.

Definition try_except {A} (body : result A) (handler : exn -> result A) : result A :=
  match body with
  | Ok a => Ok a
  | Raise e => handler e
  end.

Declare Scope py_scope.
Delimit Scope py_scope with py.
Notation "x <- c ;; k" := (bind c (fun x => k))
  (at level 100, c at next level, right associativity) : py_scope.
Notation "' pat <- c ;; k" := (bind c (fun x => match x with pat => k end))
  (at level 100, pat pattern, c at next level, right associativity) : py_scope.
Open Scope py_scope.

(** [for x in xs: s = body(s, x)], stopping at the first exception. *)
Fixpoint for_each {S A} (body : S -> A -> result S) (xs : list A) (s : S) : result S :=
  match xs with
  | [] => Ok s
  | x :: rest => s' <- body s x ;; for_each body rest s'
  end.

(** *** Floats *)

Definition prec : Z := 53.
Definition emax : Z := 1024.

(** The binary64 number nearest to an integer, as [float(z)] computes it
    when the integer is in range. *)
Definition Z2SF (z : Z) : spec_float := binary_normalize prec emax z 0 false.

(** A decimal literal [digits / 10^scale] of the source, read as the nearest
    binary64 number: both operands are exact and the division rounds
    correctly. *)
Definition float_lit (digits : Z) (scale : Z) : spec_float :=
  SFdiv prec emax (Z2SF digits) (Z2SF (10 ^ scale)).

(** The integer operand of [int * float] is converted to a float first; an
    integer beyond the binary64 range raises. *)
Definition int_to_float (z : Z) : result spec_float :=
  match Z2SF z with
  | S754_infinity _ => Raise OverflowError
  | f => Ok f
  end.

(** *** Strings *)

Definition is_continuation (c : ascii) : bool :=
  let n := N_of_ascii c in ((128 <=? n) && (n <=? 191))%N.

(** Splits UTF-8 text at code-point boundaries: the continuation bytes that
    open the text, and the characters after them. *)
Fixpoint utf8_split (s : string) : string * list string :=
  match s with
  | EmptyString => (EmptyString, [])
  | String c rest =>
      let '(k, cs) := utf8_split rest in
      if is_continuation c then (String c k, cs)
      else (EmptyString, String c k :: cs)
  end.

(** The characters of a [str], as iteration over it yields them. *)
Definition utf8_chars (s : string) : list string :=
  let '(k, cs) := utf8_split s in
  match k with
  | EmptyString => cs
  | _ => k :: cs
  end.

Fixpoint is_prefix (p s : string) : bool :=
  match p, s with
  | EmptyString, _ => true
  | String a p', String b s' => Ascii.eqb a b && is_prefix p' s'
  | String _ _, EmptyString => false
  end.

(** [pat in s] for two strings. *)
Fixpoint str_contains (pat s : string) : bool :=
  is_prefix pat s ||
  match s with
  | EmptyString => false
  | String _ s' => str_contains pat s'
  end.

(** White space as [int] strips it: tab to carriage return, and the space. *)
Definition is_space (c : ascii) : bool :=
  let n := N_of_ascii c in
  (((9 <=? n) && (n <=? 13)) || (n =? 32))%N.

Fixpoint lstrip (s : string) : string :=
  match s with
  | String c rest => if is_space c then lstrip rest else s
  | EmptyString => EmptyString
  end.

Fixpoint rstrip (s : string) : string :=
  match s with
  | EmptyString => EmptyString
  | String c rest =>
      match rstrip rest with
      | EmptyString => if is_space c then EmptyString else String c EmptyString
      | rest' => String c rest'
      end
  end.

Definition digit_of (c : ascii) : option Z :=
  let n := N_of_ascii c in
  if ((48 <=? n) && (n <=? 57))%N then Some (Z.of_N n - 48) else None.

(** Decimal digits with single underscores between digits. *)
Fixpoint int_digits (acc : Z) (after_digit : bool) (s : string) : option Z :=
  match s with
  | EmptyString => if after_digit then Some acc else None
  | String c rest =>
      match digit_of c with
      | Some d => int_digits (10 * acc + d) true rest
      | None =>
          if Ascii.eqb c "_" && after_digit then int_digits acc false rest
          else None
      end
  end.

(** [int(s)] for a [str] of ASCII text: [None] stands for [ValueError].
    Digits and spaces outside ASCII, and the interpreter's optional limit on
    the number of digits, are not modelled. *)
Definition int_of_str (s : string) : option Z :=
  match rstrip (lstrip s) with
  | String "+" rest => int_digits 0 false rest
  | String "-" rest => option_map Z.opp (int_digits 0 false rest)
  | t => int_digits 0 false t
  end.

(** *** Built-in operations on objects *)

(** Truth value of an object, as [if v:] tests it. *)
Definition truthy (v : pyval) : bool :=
  match v with
  | PNone => false
  | PBool b => b
  | PInt z => negb (z =? 0)
  | PFloat (S754_zero _) => false
  | PFloat _ => true
  | PStr EmptyString => false
  | PStr _ => true
  | PList [] => false
  | PList _ => true
  | PDict [] => false
  | PDict _ => true
  end.

(** [int(v)]: truncation toward zero for a float. *)
Definition py_int (v : pyval) : result Z :=
  match v with
  | PInt z => Ok z
  | PBool b => Ok (if b then 1 else 0)
  | PFloat S754_nan => Raise ValueError
  | PFloat (S754_infinity _) => Raise OverflowError
  | PFloat (S754_zero _) => Ok 0
  | PFloat (S754_finite s m e) =>
      Ok (cond_Zopp s (match e with
                       | Zneg p => Z.shiftr (Zpos m) (Zpos p)
                       | _ => Zpos m * 2 ^ e
                       end))
  | PStr s =>
      match int_of_str s with
      | Some z => Ok z
      | None => Raise ValueError
      end
  | PNone | PList _ | PDict _ => Raise TypeError
  end.

Fixpoint lookup (k : string) (d : list (string * pyval)) : option pyval :=
  match d with
  | [] => None
  | (k', v) :: rest => if String.eqb k k' then Some v else lookup k rest
  end.

(** [v.get(k, default)]: only a [dict] has the method. *)
Definition get (v : pyval) (k : string) (default : pyval) : result pyval :=
  match v with
  | PDict d =>
      Ok (match lookup k d with
          | Some x => x
          | None => default
          end)
  | _ => Raise AttributeError
  end.

(** [v[k]] for a string key. *)
Definition getitem (v : pyval) (k : string) : result pyval :=
  match v with
  | PDict d =>
      match lookup k d with
      | Some x => Ok x
      | None => Raise KeyError
      end
  | _ => Raise TypeError
  end.

(** [k in v] for a [dict] [v]. *)
Definition has_key (k : string) (v : pyval) : bool :=
  match v with
  | PDict d =>
      match lookup k d with
      | Some _ => true
      | None => false
      end
  | _ => false
  end.

(** [v == s] for a string constant [s]. *)
Definition eq_str (v : pyval) (s : string) : bool :=
  match v with
  | PStr t => String.eqb t s
  | _ => false
  end.

(** The items iteration over an object yields. *)
Definition iter (v : pyval) : result (list pyval) :=
  match v with
  | PList l => Ok l
  | PDict d => Ok (map (fun kv => PStr (fst kv)) d)
  | PStr s => Ok (map PStr (utf8_chars s))
  | PNone | PBool _ | PInt _ | PFloat _ => Raise TypeError
  end.

(** [a, b = v] *)
Definition unpack2 (v : pyval) : result (pyval * pyval) :=
  xs <- iter v ;;
  match xs with
  | [a; b] => Ok (a, b)
  | _ => Raise ValueError
  end.

End Py.
Import Py.

(** ** The collaborators *)

(** A geometry of the boundary table: the shell of a polygon built by the
    script, or a geometry delivered by OSM, which the script never opens. *)
Inductive shape : Type :=
| Polygon (shell : list (spec_float * spec_float))
| OsmShape (wkt : string).

(** One row of the table [ox.geometries_from_place] returns.  OSM tag values
    are text; [None] is a missing value (NaN). *)
Record osm_row : Type := {
  row_name : option string;
  row_admin_level : option string;
  row_geometry : shape
}.

(** The table of a look-up: the tag columns it has (the geometry column is
    always there) and its rows. *)
Record GeoDataFrame : Type := {
  columns : list string;
  rows : list osm_row
}.

(** An entry [[latitude, longitude, floors * 10]] of [buildings_list]. *)
Record building : Type := {
  lat : pyval;
  lon : pyval;
  weight : Z
}.

(** A row of a CSV table, as [iterrows] yields it: cells by column label. *)
Definition Series : Type := list (string * pyval).

(** The table [pd.read_csv] returns: the labels of its columns and, for
    each row, its cells in the order of the columns. *)
Record DataFrame : Type := {
  df_columns : list string;
  df_rows : list (list pyval)
}.

Record World : Type := {
  (** [json.load(open(path))] *)
  json_load : string -> result pyval;
  (** [ox.geometries_from_place(place, {'boundary': 'administrative'}).reset_index()] *)
  geometries_from_place : string -> result GeoDataFrame;
  (** [pd.read_csv(path, sep=';')] *)
  read_csv : string -> result DataFrame;
  (** What [pd.DataFrame(buildings_data, columns=[...])] raises, if it
      raises, when it converts the cells of a list that has rows. *)
  pandas_DataFrame : list building -> option exn;
  (** What [HeatMap(data, max_val=..., ...)] raises, if it raises, when it
      checks the rows of its data. *)
  folium_HeatMap : list building -> spec_float -> option exn;
  (** What [folium.Marker(location=[latitude, longitude], popup=...)]
      raises, if it raises, when it checks its location. *)
  folium_Marker : pyval -> pyval -> pyval -> option exn
}.

(** ** The GeoJSON building parser *)

(** The [try] around [int(building_levels)]. *)
Definition floors_of (building_levels : pyval) : result Z :=
  if truthy building_levels then
    try_except (py_int building_levels)
      (fun e =>
         match e with
         | ValueError | TypeError => Ok 1
         | _ => Raise e
         end)
  else Ok 1.

(** The body of the loop over the features; a skipped feature leaves
    [buildings_list] as it is. *)
Definition feature_step (buildings_list : list building) (feature : pyval)
  : result (list building) :=
  properties <- get feature "properties" (PDict []) ;;
  geometry <- get feature "geometry" (PDict []) ;;
  ty <- get geometry "type" PNone ;;
  if eq_str ty "Point" && has_key "coordinates" geometry then
    coordinates <- getitem geometry "coordinates" ;;
    '(longitude, latitude) <- unpack2 coordinates ;;
    building_levels <- get properties "building:levels" PNone ;;
    floors <- floors_of building_levels ;;
    Ok (buildings_list ++ [{| lat := latitude; lon := longitude; weight := floors * 10 |}])%list
  else Ok buildings_list.

(** The features the loop visits: [geojson_data['features']], iterated. *)
Definition features_of (geojson_data : pyval) : result (list pyval) :=
  features <- getitem geojson_data "features" ;;
  iter features.

Definition parse_features (geojson_data : pyval) : result (list building) :=
  items <- features_of geojson_data ;;
  for_each feature_step items [].

Definition parse_geojson_buildings (w : World) (file_path : string)
  : result (list building) :=
  geojson_data <- json_load w file_path ;;
  parse_features geojson_data.

(** *** What the parser reads in a feature

    The values the loop body looks at, for stating properties of a feature.
    A look-up that would raise reads as [None]. *)

Definition properties_of (feature : pyval) : pyval :=
  match get feature "properties" (PDict []) with
  | Ok properties => properties
  | Raise _ => PNone
  end.

Definition geometry_of (feature : pyval) : pyval :=
  match get feature "geometry" (PDict []) with
  | Ok geometry => geometry
  | Raise _ => PNone
  end.

Definition geometry_type (feature : pyval) : pyval :=
  match get (geometry_of feature) "type" PNone with
  | Ok ty => ty
  | Raise _ => PNone
  end.

(** The geometry type is ['Point']; false when the feature has no
    ['geometry'] key. *)
Definition is_point (feature : pyval) : bool :=
  eq_str (geometry_type feature) "Point".

Definition has_coordinates (feature : pyval) : bool :=
  has_key "coordinates" (geometry_of feature).

Definition coordinates_of (feature : pyval) : pyval :=
  match getitem (geometry_of feature) "coordinates" with
  | Ok coordinates => coordinates
  | Raise _ => PNone
  end.

(** The value of [building:levels], [None] when the key is absent. *)
Definition levels_of (feature : pyval) : pyval :=
  match get (properties_of feature) "building:levels" PNone with
  | Ok building_levels => building_levels
  | Raise _ => PNone
  end.

(** The feature passes the test of the loop body and is not skipped. *)
Definition is_kept (feature : pyval) : bool :=
  is_point feature && has_coordinates feature.

(** A feature the loop body handles without raising: a [dict] whose
    geometry is a [dict] and which, when it is kept, has coordinates that
    unpack into two values, properties that are a [dict], and a floor count
    that is not an infinite float. *)
Definition well_formed (feature : pyval) : Prop :=
  (exists d, feature = PDict d)
  /\ (exists g, geometry_of feature = PDict g)
  /\ (is_kept feature = true ->
      (exists longitude latitude,
          unpack2 (coordinates_of feature) = Ok (longitude, latitude))
      /\ (exists p, properties_of feature = PDict p)
      /\ py_int (levels_of feature) <> Raise OverflowError).

(** The entry a feature contributes to the output, if any. *)
Definition entry_of (feature : pyval) : list building :=
  if is_kept feature then
    match unpack2 (coordinates_of feature), floors_of (levels_of feature) with
    | Ok (longitude, latitude), Ok floors =>
        [{| lat := latitude; lon := longitude; weight := floors * 10 |}]
    | _, _ => []
    end
  else [].

(** ** Console output, the map and the files *)

(** One constructor for each [print] of the script. *)
Inductive message : Type :=
| SearchingBoundary (city_name : string)
| PolygonsFound (n : nat)
| PolygonsNotFound
| BoundaryError (e : exn)
| BuildingsProcessed (n : nat)
| MaxWeight (max_weight : pyval)
| FetchingBoundary
| BoundaryAdded
| BranchesAdded
| BranchesFileNotFound
| BranchesError (e : exn)
| CompetitorsAdded
| CompetitorsFileNotFound
| CompetitorsError (e : exn)
| MapSaved
| ShowingBoundary
| BoundaryMapSaved
| SettingsLine (n : nat).

(** [folium.DivIcon] (the red disc with the letter given) and [folium.Icon]. *)
Inductive icon : Type :=
| DivIcon (letter : string) (icon_size icon_anchor : Z * Z)
| Icon (color : string).

Record style : Type := {
  fillColor : string;
  color : string;
  stroke_weight : Z;
  fillOpacity : spec_float
}.

#[local] Set Warnings "-register-all".

(** The folium elements the script builds. *)
Inductive element : Type :=
| GeoJson (data : list shape) (name : string) (style_function : option style)
| HeatMap (data : list building) (min_opacity max_val : spec_float)
    (radius blur max_zoom : Z) (gradient : list (spec_float * string))
| Marker (location : pyval * pyval) (popup : pyval) (marker_icon : icon)
| FeatureGroup (name : string) (children : list element)
| LayerControl (collapsed : bool).

Inductive center : Type :=
| At (latitude longitude : spec_float)
| MeanOfCentroids (geometry : list shape).

Record folium_map : Type := {
  map_location : center;
  zoom_start : Z;
  tiles : option string;
  map_children : list element
}.

Record state : Type := {
  stdout : list message;
  hmap : list element;
  files : list (string * folium_map)
}.

Definition initial : state := {| stdout := []; hmap := []; files := [] |}.

(** The script monad: state is kept when an exception is raised. *)
Definition M (A : Type) : Type := state -> result A * state.

Definition ret {A} (a : A) : M A := fun st => (Ok a, st).

Definition bindM {A B} (c : M A) (k : A -> M B) : M B :=
  fun st =>
    match c st with
    | (Ok a, st') => k a st'
    | (Raise e, st') => (Raise e, st')
    end.

Definition lift {A} (r : result A) : M A := fun st => (r, st).

Definition try_catch {A} (body : M A) (handler : exn -> M A) : M A :=
  fun st =>
    match body st with
    | (Ok a, st') => (Ok a, st')
    | (Raise e, st') => handler e st'
    end.

Definition print (m : message) : M unit :=
  fun st => (Ok tt, {| stdout := stdout st ++ [m]; hmap := hmap st; files := files st |}).

(** [hmap.add_child(child)] *)
Definition add_child (child : element) : M unit :=
  fun st => (Ok tt, {| stdout := stdout st; hmap := hmap st ++ [child]; files := files st |}).

(** [m.save(path)] *)
Definition save (m : folium_map) (path : string) : M unit :=
  fun st => (Ok tt, {| stdout := stdout st; hmap := hmap st; files := files st ++ [(path, m)] |}).

Definition get_hmap : M (list element) := fun st => (Ok (hmap st), st).

Declare Scope script_scope.
Delimit Scope script_scope with script.
Notation "x <- c ;; k" := (bindM c (fun x => k))
  (at level 100, c at next level, right associativity) : script_scope.
Notation "c ;; k" := (bindM c (fun _ => k))
  (at level 100, right associativity) : script_scope.

(** ** The boundary resolver *)

Definition name_contains (pat : string) (r : osm_row) : bool :=
  match row_name r with
  | Some s => str_contains pat s
  | None => false
  end.

Definition admin_level_is (level : string) (r : osm_row) : bool :=
  match row_admin_level r with
  | Some s => String.eqb s level
  | None => false
  end.

(** [df[c]] raises when the table has no column [c]. *)
Definition column (df : GeoDataFrame) (c : string) : result unit :=
  if existsb (String.eqb c) (columns df) then Ok tt else Raise KeyError.

Definition is_boundary_row (r : osm_row) : bool :=
  name_contains "Нижний Новгород" r
  || name_contains "Nizhny Novgorod" r
  || admin_level_is "8" r
  || admin_level_is "6" r.

Definition filter_polygons (polygon_city : GeoDataFrame) : result GeoDataFrame :=
  _ <- column polygon_city "name" ;;
  _ <- column polygon_city "admin_level" ;;
  Ok {| columns := columns polygon_city;
        rows := filter is_boundary_row (rows polygon_city) |}.

Definition nizhny_novgorod_bounds : list (spec_float * spec_float) :=
  [ (float_lit 5620 2, float_lit 4380 2);
    (float_lit 5620 2, float_lit 4410 2);
    (float_lit 5640 2, float_lit 4410 2);
    (float_lit 5640 2, float_lit 4380 2);
    (float_lit 5620 2, float_lit 4380 2) ].

Definition manual_polygon : GeoDataFrame :=
  {| columns := ["name"];
     rows := [ {| row_name := Some "Нижний Новгород (ручной)";
                  row_admin_level := None;
                  row_geometry := Polygon nizhny_novgorod_bounds |} ] |}.

(** [None] is Python's [None]. *)
Definition get_city_boundary (w : World) (city_name : string) : M (option GeoDataFrame) :=
  (try_catch
     (print (SearchingBoundary city_name) ;;
      polygon_city <- lift (geometries_from_place w city_name) ;;
      polygon_filtered <- lift (filter_polygons polygon_city) ;;
      if (0 <? List.length (rows polygon_filtered))%nat then
        print (PolygonsFound (List.length (rows polygon_filtered))) ;;
        ret (Some polygon_filtered)
      else
        print PolygonsNotFound ;;
        ret (Some manual_polygon))
     (fun e =>
        print (BoundaryError e) ;;
        ret None))%script.

(** [city_boundary['geometry']] *)
Definition geometry_column (df : GeoDataFrame) : list shape :=
  map row_geometry (rows df).

Definition visualize_polygons (geometry : list shape) : folium_map :=
  {| map_location := MeanOfCentroids geometry;
     zoom_start := 13;
     tiles := Some "cartodbpositron";
     map_children := [GeoJson geometry "boundary" None] |}.

(** ** The script *)

Definition df_max (weights : list Z) : pyval :=
  match weights with
  | [] => PFloat S754_nan
  | x :: rest => PInt (fold_left Z.max rest x)
  end.

(** [df_buildings['weight'].max()]: NaN for an empty table. *)
Definition max_weight_of (buildings_data : list building) : pyval :=
  df_max (map weight buildings_data).

(** [v * c] for a number [v] and a float [c]. *)
Definition mul_float (v : pyval) (c : spec_float) : result spec_float :=
  match v with
  | PInt z => f <- int_to_float z ;; Ok (SFmul prec emax f c)
  | PFloat f => Ok (SFmul prec emax f c)
  | _ => Raise TypeError
  end.

(** [max_weight * 0.4], the [max_val] of the heat map. *)
Definition heat_max_val (buildings_data : list building) : result spec_float :=
  mul_float (max_weight_of buildings_data) (float_lit 4 1).

(** The rational number a float denotes; none for an infinity or NaN. *)
Definition SF2Q (x : spec_float) : option Q :=
  match x with
  | S754_zero _ => Some 0%Q
  | S754_finite s m e => Some (inject_Z (cond_Zopp s (Zpos m)) * 2 ^ e)%Q
  | S754_infinity _ | S754_nan => None
  end.

(** The number [max_val] denotes. *)
Definition heat_value (buildings_data : list building) : option Q :=
  match heat_max_val buildings_data with
  | Ok max_val => SF2Q max_val
  | Raise _ => None
  end.

(** The building with another floor count. *)
Definition with_floors (b : building) (floors : Z) : building :=
  {| lat := lat b; lon := lon b; weight := floors * 10 |}.

(** [m] is the greatest weight in the table. *)
Definition is_max_weight (m : Z) (buildings_data : list building) : Prop :=
  (exists b, In b buildings_data /\ weight b = m)
  /\ forall c, In c buildings_data -> weight c <= m.

Definition gradient_stops : list (spec_float * string) :=
  [ (float_lit 1 1, "blue"); (float_lit 2 1, "blue");
    (float_lit 3 1, "lime"); (float_lit 4 1, "lime");
    (float_lit 5 1, "yellow"); (float_lit 6 1, "yellow");
    (float_lit 7 1, "orange"); (float_lit 8 1, "orange");
    (float_lit 9 1, "red"); (float_lit 10 1, "red") ].

Definition boundary_style : style :=
  {| fillColor := "lightblue"; color := "blue"; stroke_weight := 2;
     fillOpacity := float_lit 1 1 |}.

Definition boundary_layer_name : string := "Границы города".
Definition building_density_name : string := "Распределение МСБ и ИП".
Definition filial_markers_name : string := "Отделения АО «Альфа-Банк»".
Definition competitor_markers_name : string := "Банки-конкуренты".

Definition branch_icon : icon := DivIcon "А" (22, 22) (11, 11).
Definition competitor_icon : icon := Icon "blue".

(** [row[k]] for a row of a CSV table. *)
Definition series_get (row : Series) (k : string) : result pyval :=
  match lookup k row with
  | Some v => Ok v
  | None => Raise KeyError
  end.

(** The row of the labels over the cells; a cell the row lacks is NaN. *)
Fixpoint row_series (labels : list string) (cells : list pyval) : Series :=
  match labels with
  | [] => []
  | label :: labels' =>
      (label, hd (PFloat S754_nan) cells) :: row_series labels' (tl cells)
  end.

(** [table.iterrows()]: every row carries all the columns of the table. *)
Definition iterrows (table : DataFrame) : list Series :=
  map (row_series (df_columns table)) (df_rows table).

(** [folium.Marker(location=[latitude, longitude], popup=popup, icon=ic)] *)
Definition new_marker (w : World) (latitude longitude popup : pyval) (ic : icon)
  : result element :=
  match folium_Marker w latitude longitude popup with
  | Some e => Raise e
  | None => Ok (Marker (latitude, longitude) popup ic)
  end.

(** The body of a marker loop: the arguments are read from the row, the
    marker is built and added to the group. *)
Definition marker_step (w : World) (ic : icon) (group : list element) (row : Series)
  : result (list element) :=
  latitude <- series_get row "lat" ;;
  longitude <- series_get row "lon" ;;
  popup <- series_get row "name" ;;
  marker <- new_marker w latitude longitude popup ic ;;
  Ok (group ++ [marker])%list.

(** What a marker block computes before it touches the map: the CSV table
    read and a marker built for each row. *)
Definition load_markers (w : World) (path : string) (ic : icon) : result (list element) :=
  table <- read_csv w path ;;
  for_each (marker_step w ic) (iterrows table) [].

(** [city_boundary_layer]: the group holding the GeoJSON overlay. *)
Definition city_boundary_layer (boundary : GeoDataFrame) : element :=
  FeatureGroup boundary_layer_name
    [GeoJson (geometry_column boundary) "Границы Нижнего Новгорода"
       (Some boundary_style)].

(** [building_density]: the group holding the heat map [hm]. *)
Definition building_density (buildings_data : list building) (max_val : spec_float)
  : element :=
  FeatureGroup building_density_name
    [HeatMap buildings_data (float_lit 3 1) max_val 8 10 18 gradient_stops].

(** [pd.DataFrame(buildings_data, columns=['lat', 'lon', 'weight'])].  The
    table itself is read only for its maximum weight, [max_weight_of]; a
    list without rows has no cell to convert. *)
Definition new_dataframe (w : World) (buildings_data : list building) : result unit :=
  match buildings_data with
  | [] => Ok tt
  | _ :: _ =>
      match pandas_DataFrame w buildings_data with
      | Some e => Raise e
      | None => Ok tt
      end
  end.

(** [hm = HeatMap(buildings_data, min_opacity=0.3, max_val=..., ...)]; data
    without rows has nothing to check. *)
Definition new_heatmap (w : World) (buildings_data : list building)
  (max_val : spec_float) : result element :=
  let hm := HeatMap buildings_data (float_lit 3 1) max_val 8 10 18 gradient_stops in
  match buildings_data with
  | [] => Ok hm
  | _ :: _ =>
      match folium_HeatMap w buildings_data max_val with
      | Some e => Raise e
      | None => Ok hm
      end
  end.

(** [hmap] with the children it has when it is saved. *)
Definition hmap_with (children : list element) : folium_map :=
  {| map_location := At (float_lit 56326 3) (float_lit 44005 3);
     zoom_start := 11;
     tiles := None;
     map_children := children |}.

Definition add_boundary_layer (city_boundary : option GeoDataFrame) : M unit :=
  match city_boundary with
  | Some boundary =>
      (add_child (city_boundary_layer boundary) ;;
       print BoundaryAdded)%script
  | None => ret tt
  end.

Definition add_branches (w : World) : M unit :=
  (try_catch
     (filial_markers <- lift (load_markers w "data/branches.csv" branch_icon) ;;
      add_child (FeatureGroup filial_markers_name filial_markers) ;;
      print BranchesAdded)
     (fun e =>
        match e with
        | FileNotFoundError => print BranchesFileNotFound
        | _ => print (BranchesError e)
        end))%script.

Definition add_competitors (w : World) : M unit :=
  (try_catch
     (competitor_markers <- lift (load_markers w "data/competitors.csv" competitor_icon) ;;
      add_child (FeatureGroup competitor_markers_name competitor_markers) ;;
      print CompetitorsAdded)
     (fun e =>
        match e with
        | FileNotFoundError => print CompetitorsFileNotFound
        | _ => print (CompetitorsError e)
        end))%script.

Definition save_boundary_map (city_boundary : option GeoDataFrame) : M unit :=
  match city_boundary with
  | Some boundary =>
      (print ShowingBoundary ;;
       save (visualize_polygons (geometry_column boundary)) "city_boundary.html" ;;
       print BoundaryMapSaved)%script
  | None => ret tt
  end.

Definition print_settings : M unit :=
  (print (SettingsLine 0) ;; print (SettingsLine 1) ;; print (SettingsLine 2) ;;
   print (SettingsLine 3) ;; print (SettingsLine 4) ;; print (SettingsLine 5))%script.

Definition city : string := "Нижний Новгород, Россия".

(** The module-level statements of [heatmap.py], in their order.  The map
    [hmap] is created empty after the boundary look-up; the state holds its
    children, none before. *)
Definition main (w : World) : M unit :=
  (buildings_data <- lift (parse_geojson_buildings w "data/houses.geojson") ;;
   lift (new_dataframe w buildings_data) ;;
   let max_weight := max_weight_of buildings_data in
   print (BuildingsProcessed (List.length buildings_data)) ;;
   print (MaxWeight max_weight) ;;
   print FetchingBoundary ;;
   city_boundary <- get_city_boundary w city ;;
   add_boundary_layer city_boundary ;;
   max_val <- lift (mul_float max_weight (float_lit 4 1)) ;;
   hm <- lift (new_heatmap w buildings_data max_val) ;;
   add_branches w ;;
   add_competitors w ;;
   add_child (FeatureGroup building_density_name [hm]) ;;
   add_child (LayerControl false) ;;
   children <- get_hmap ;;
   save (hmap_with children) "index.html" ;;
   print MapSaved ;;
   save_boundary_map city_boundary ;;
   print_settings)%script.

(** ** Reading a run *)

Definition is_group (name : string) (c : element) : bool :=
  match c with
  | FeatureGroup n _ => String.eqb n name
  | _ => false
  end.

(** The map has a layer of this name among its children. *)
Definition has_layer (name : string) (children : list element) : bool :=
  existsb (is_group name) children.

(** The position of the layer of this name among the children. *)
Fixpoint layer_index (name : string) (children : list element) : option nat :=
  match children with
  | [] => None
  | c :: rest =>
      if is_group name c then Some 0%nat
      else option_map S (layer_index name rest)
  end.

(** A file of this name was written. *)
Definition written (path : string) (st : state) : bool :=
  existsb (fun f => String.eqb (fst f) path) (files st).

(** The boundary the resolver returns in a world; it does not depend on the
    state it starts in. *)
Definition city_boundary_of (w : World) : option GeoDataFrame :=
  match fst (get_city_boundary w city initial) with
  | Ok city_boundary => city_boundary
  | Raise _ => None
  end.

Definition boundary_layers (city_boundary : option GeoDataFrame) : list element :=
  match city_boundary with
  | Some boundary => [city_boundary_layer boundary]
  | None => []
  end.

Definition marker_layers (name : string) (markers : result (list element))
  : list element :=
  match markers with
  | Ok ms => [FeatureGroup name ms]
  | Raise _ => []
  end.

Definition branch_layers (w : World) : list element :=
  marker_layers filial_markers_name (load_markers w "data/branches.csv" branch_icon).

Definition competitor_layers (w : World) : list element :=
  marker_layers competitor_markers_name
    (load_markers w "data/competitors.csv" competitor_icon).

(** The state after a step that printed [out], added [layers] to the map
    and wrote [docs]. *)
Definition effect (st : state) (out : list message) (layers : list element)
  (docs : list (string * folium_map)) : state :=
  {| stdout := stdout st ++ out; hmap := hmap st ++ layers; files := files st ++ docs |}.

Definition boundary_log (w : World) : list message :=
  stdout (snd (get_city_boundary w city initial)).

Definition boundary_added (city_boundary : option GeoDataFrame) : list message :=
  match city_boundary with
  | Some _ => [BoundaryAdded]
  | None => []
  end.

Definition marker_log (added not_found : message) (error : exn -> message)
  (markers : result (list element)) : list message :=
  match markers with
  | Ok _ => [added]
  | Raise FileNotFoundError => [not_found]
  | Raise e => [error e]
  end.

Definition branch_log (w : World) : list message :=
  marker_log BranchesAdded BranchesFileNotFound BranchesError
    (load_markers w "data/branches.csv" branch_icon).

Definition competitor_log (w : World) : list message :=
  marker_log CompetitorsAdded CompetitorsFileNotFound CompetitorsError
    (load_markers w "data/competitors.csv" competitor_icon).

Definition boundary_docs (city_boundary : option GeoDataFrame)
  : list (string * folium_map) :=
  match city_boundary with
  | Some boundary =>
      [("city_boundary.html", visualize_polygons (geometry_column boundary))]
  | None => []
  end.

Definition boundary_saved (city_boundary : option GeoDataFrame) : list message :=
  match city_boundary with
  | Some _ => [ShowingBoundary; BoundaryMapSaved]
  | None => []
  end.

Definition final_layers (w : World) (buildings_data : list building)
  (max_val : spec_float) : list element :=
  boundary_layers (city_boundary_of w) ++ branch_layers w ++ competitor_layers w
  ++ [building_density buildings_data max_val; LayerControl false].

Definition final_state (w : World) (buildings_data : list building)
  (max_val : spec_float) : state :=
  {| stdout :=
       [BuildingsProcessed (List.length buildings_data);
        MaxWeight (max_weight_of buildings_data); FetchingBoundary]
       ++ boundary_log w ++ boundary_added (city_boundary_of w)
       ++ branch_log w ++ competitor_log w ++ [MapSaved]
       ++ boundary_saved (city_boundary_of w)
       ++ map SettingsLine (seq 0 6);
     hmap := final_layers w buildings_data max_val;
     files :=
       ("index.html", hmap_with (final_layers w buildings_data max_val))
       :: boundary_docs (city_boundary_of w) |}.

(** The state of a run that stops at the heat map, on its [max_val] or in
    its constructor, before any file is written. *)
Definition aborted_state (w : World) (buildings_data : list building) : state :=
  {| stdout :=
       [BuildingsProcessed (List.length buildings_data);
        MaxWeight (max_weight_of buildings_data); FetchingBoundary]
       ++ boundary_log w ++ boundary_added (city_boundary_of w);
     hmap := boundary_layers (city_boundary_of w);
     files := [] |}.

(** *** The markers of a CSV table *)

(** The marker a row of a CSV table gives: the row has the three columns
    and folium accepts the location; the exception of the row otherwise. *)
Definition marker_of (w : World) (ic : icon) (row : Series) : result element :=
  match lookup "lat" row, lookup "lon" row, lookup "name" row with
  | Some latitude, Some longitude, Some popup =>
      new_marker w latitude longitude popup ic
  | _, _, _ => Raise KeyError
  end.

(** The markers of all the rows, or the exception of the first row that
    has one. *)
Fixpoint markers_of (w : World) (ic : icon) (rows : list Series)
  : result (list element) :=
  match rows with
  | [] => Ok []
  | row :: rest =>
      match marker_of w ic row with
      | Ok m =>
          match markers_of w ic rest with
          | Ok ms => Ok (m :: ms)
          | Raise e => Raise e
          end
      | Raise e => Raise e
      end
  end.

(** ** Sample inputs *)

Module Examples.

Definition point_feature (coordinates : pyval) (properties : list (string * pyval))
  : pyval :=
  PDict [ ("type", PStr "Feature");
          ("geometry", PDict [("type", PStr "Point"); ("coordinates", coordinates)]);
          ("properties", PDict properties) ].

Definition collection (features : list pyval) : pyval :=
  PDict [("type", PStr "FeatureCollection"); ("features", PList features)].

Definition lon_440 : pyval := PFloat (float_lit 440 1).
Definition lat_563 : pyval := PFloat (float_lit 563 1).
Definition lonlat : pyval := PList [lon_440; lat_563].

Definition levels (v : pyval) : list (string * pyval) := [("building:levels", v)].

(** A Point geometry that carries no coordinates. *)
Definition point_without_coordinates : pyval :=
  PDict [ ("type", PStr "Feature");
          ("geometry", PDict [("type", PStr "Point")]);
          ("properties", PDict []) ].

Definition houses : pyval :=
  collection [point_feature lonlat (levels (PStr "5")); point_feature lonlat []].

(** A building without a position: [coordinates] is [[null, null]]. *)
Definition unlocated_houses : pyval :=
  collection [point_feature (PList [PNone; PNone]) []].

Definition branches_table : DataFrame :=
  {| df_columns := ["name"; "lat"; "lon"];
     df_rows := [ [PStr "Central"; PFloat (float_lit 5632 2);
                   PFloat (float_lit 4400 2)] ] |}.

(** A number that is a position on the map: an integer or a finite float. *)
Definition is_coordinate (v : pyval) : bool :=
  match v with
  | PInt _ => true
  | PFloat (S754_zero _) | PFloat (S754_finite _ _ _) => true
  | _ => false
  end.

(** The checks of the libraries on the sample inputs: pandas builds every
    table; folium raises [ValueError] on a location that is not a pair of
    numbers. *)
Definition builds_table (buildings_data : list building) : option exn := None.

Definition checks_heatmap (data : list building) (max_val : spec_float) : option exn :=
  if forallb (fun b => is_coordinate (lat b) && is_coordinate (lon b)) data
  then None else Some ValueError.

Definition checks_marker (latitude longitude popup : pyval) : option exn :=
  if is_coordinate latitude && is_coordinate longitude then None else Some ValueError.

Definition district : osm_row :=
  {| row_name := Some "городской округ Нижний Новгород";
     row_admin_level := Some "6";
     row_geometry := OsmShape "POLYGON" |}.

Definition osm_table : GeoDataFrame :=
  {| columns := ["element_type"; "osmid"; "name"; "admin_level"];
     rows := [district] |}.

(** Every input is there and the look-up finds the city. *)
Definition full_world : World :=
  {| json_load := fun _ => Ok houses;
     geometries_from_place := fun _ => Ok osm_table;
     read_csv := fun _ => Ok branches_table;
     pandas_DataFrame := builds_table;
     folium_HeatMap := checks_heatmap;
     folium_Marker := checks_marker |}.

(** The look-up raises and neither CSV file exists. *)
Definition offline_world : World :=
  {| json_load := fun _ => Ok houses;
     geometries_from_place := fun _ => Raise (OtherError "ConnectionError");
     read_csv := fun _ => Raise FileNotFoundError;
     pandas_DataFrame := builds_table;
     folium_HeatMap := checks_heatmap;
     folium_Marker := checks_marker |}.

(** As [offline_world], with a building that has no position. *)
Definition unlocated_world : World :=
  {| json_load := fun _ => Ok unlocated_houses;
     geometries_from_place := fun _ => Raise (OtherError "ConnectionError");
     read_csv := fun _ => Raise FileNotFoundError;
     pandas_DataFrame := builds_table;
     folium_HeatMap := checks_heatmap;
     folium_Marker := checks_marker |}.

(** The look-up returns a table in which no row is selected. *)
Definition empty_lookup_world : World :=
  {| json_load := fun _ => Ok houses;
     geometries_from_place :=
       fun _ => Ok {| columns := ["name"; "admin_level"]; rows := [] |};
     read_csv := fun _ => Raise FileNotFoundError;
     pandas_DataFrame := builds_table;
     folium_HeatMap := checks_heatmap;
     folium_Marker := checks_marker |}.

End Examples.

(** * Properties *)

(** ** The built-in operations on sample values *)

Example int_of_str_samples :
  map int_of_str [" 12 "; "1_000"; "-0"; "+7"; "007"; "1__0"; "_1"; "1_"; ""; "+ 5"; "5.5"]
  = [Some 12; Some 1000; Some 0; Some 7; Some 7; None; None; None; None; None; None].
Proof. reflexivity. Qed.

Example py_int_samples :
  map py_int [PInt 3; PBool true; PStr "12"; PStr "twelve"; PNone; PList [PInt 1];
              PFloat (float_lit 57 1); PFloat (S754_infinity false); PFloat S754_nan]
  = [Ok 3; Ok 1; Ok 12; Raise ValueError; Raise TypeError; Raise TypeError;
     Ok 5; Raise OverflowError; Raise ValueError].
Proof. reflexivity. Qed.

Example truthy_samples :
  map truthy [PNone; PInt 0; PStr ""; PStr "0"; PList []; PDict [];
              PFloat (S754_zero true); PFloat S754_nan; PBool false; PInt (-1)]
  = [false; false; false; true; false; false; false; true; false; true].
Proof. reflexivity. Qed.

Example unpack2_samples :
  map unpack2 [PList [PInt 1; PInt 2]; PStr "ab"; PList [PInt 1; PInt 2; PInt 3];
               PInt 5; PNone]
  = [Ok (PInt 1, PInt 2); Ok (PStr "a", PStr "b"); Raise ValueError;
     Raise TypeError; Raise TypeError].
Proof. reflexivity. Qed.

(** ** The parser *)

(** The loop body, read through what it looks at in the feature. *)
Lemma feature_step_unfold acc f :
  feature_step acc f =
  match f, geometry_of f with
  | PDict _, PDict _ =>
      if is_kept f then
        bind (unpack2 (coordinates_of f)) (fun c =>
        match properties_of f with
        | PDict _ =>
            bind (floors_of (levels_of f)) (fun floors =>
            Ok (acc ++ [{| lat := snd c; lon := fst c; weight := floors * 10 |}]))
        | _ => Raise AttributeError
        end)
      else Ok acc
  | _, _ => Raise AttributeError
  end.
Proof.
  unfold feature_step, is_kept, is_point, has_coordinates, geometry_type,
    coordinates_of, levels_of, properties_of, geometry_of.
  destruct f; try reflexivity.
  cbn [get bind].
  destruct (lookup "geometry" d) as [g|] eqn:Hg.
  - destruct g; try (destruct (lookup "properties" d) as [[]|]; reflexivity).
    cbn [get bind has_key getitem].
    destruct (lookup "type" d0) as [t|]; cbn [eq_str andb].
    + destruct (eq_str t "Point"); cbn [andb]; [|reflexivity].
      destruct (lookup "coordinates" d0) as [c|]; [|reflexivity].
      cbn [bind].
      destruct (unpack2 c) as [[x y]|e]; [|reflexivity].
      cbn [bind fst snd].
      destruct (lookup "properties" d) as [p|].
      * destruct p; reflexivity.
      * reflexivity.
    + reflexivity.
  - cbn [get bind has_key lookup eq_str andb]. reflexivity.
Qed.

(** Case analysis along [feature_step_unfold]: the goals left are the kept
    feature whose entry is built and the skipped feature. *)
Ltac step_cases f :=
  destruct f as [ | | | | | | ?d]; try discriminate;
  destruct (geometry_of (PDict d)); try discriminate;
  destruct (is_kept (PDict d));
  [ destruct (unpack2 (coordinates_of (PDict d))) as [[? ?]|?];
    cbn [bind]; [|discriminate];
    destruct (properties_of (PDict d)); try discriminate;
    destruct (floors_of (levels_of (PDict d))) as [?|?];
    cbn [bind fst snd]; [|discriminate]
  | ].

Lemma feature_step_entry acc f out :
  feature_step acc f = Ok out -> out = acc ++ entry_of f.
Proof.
  rewrite feature_step_unfold. unfold entry_of. step_cases f.
  - intros H. injection H as <-. reflexivity.
  - intros H. injection H as <-. symmetry. apply app_nil_r.
Qed.

(** Whether the body raises does not depend on the entries collected. *)
Lemma feature_step_any_acc acc acc' f out :
  feature_step acc f = Ok out -> feature_step acc' f = Ok (acc' ++ entry_of f).
Proof.
  rewrite !feature_step_unfold. unfold entry_of. step_cases f.
  - reflexivity.
  - intros _. now rewrite app_nil_r.
Qed.


Lemma entry_of_short f : (List.length (entry_of f) <= 1)%nat.
Proof.
  unfold entry_of. destruct (is_kept f); [|cbn; lia].
  destruct (unpack2 _) as [[x y]|e]; [|cbn; lia].
  destruct (floors_of _); cbn; lia.
Qed.

Lemma for_each_entries items : forall acc out,
  for_each feature_step items acc = Ok out ->
  out = acc ++ flat_map entry_of items.
Proof.
  induction items as [|f items IH]; intros acc out H; cbn [for_each flat_map] in *.
  - injection H as <-. symmetry. apply app_nil_r.
  - destruct (feature_step acc f) as [acc'|e] eqn:Hstep; cbn [bind] in H; [|discriminate].
    apply feature_step_entry in Hstep. subst acc'.
    rewrite (IH _ _ H). now rewrite app_assoc.
Qed.

Lemma for_each_steps items : forall acc out,
  for_each feature_step items acc = Ok out ->
  Forall (fun f => feature_step [] f = Ok (entry_of f)) items.
Proof.
  induction items as [|f items IH]; intros acc out H; cbn [for_each] in *.
  - constructor.
  - destruct (feature_step acc f) as [acc'|e] eqn:Hstep; cbn [bind] in H; [|discriminate].
    constructor.
    + exact (feature_step_any_acc _ [] _ _ Hstep).
    + exact (IH _ _ H).
Qed.

Lemma for_each_returns items : forall acc,
  Forall (fun f => feature_step [] f = Ok (entry_of f)) items ->
  for_each feature_step items acc = Ok (acc ++ flat_map entry_of items).
Proof.
  induction items as [|f items IH]; intros acc H; cbn [for_each flat_map].
  - now rewrite app_nil_r.
  - inversion H as [|f' items' Hf Hrest]; subst.
    rewrite (feature_step_any_acc _ acc _ _ Hf). cbn [bind].
    rewrite (IH _ Hrest). now rewrite app_assoc.
Qed.

Lemma parse_features_items fc out :
  parse_features fc = Ok out ->
  exists items, features_of fc = Ok items /\ for_each feature_step items [] = Ok out.
Proof.
  unfold parse_features. destruct (features_of fc) as [items|e]; cbn [bind]; [|discriminate].
  intros H. now exists items.
Qed.

Lemma is_kept_dicts f :
  is_kept f = true -> exists d g, f = PDict d /\ geometry_of f = PDict g.
Proof.
  unfold is_kept, is_point, geometry_type. intros H.
  apply andb_prop in H as [H _].
  destruct f; try discriminate H.
  exists d. destruct (geometry_of (PDict d)); try discriminate H.
  now eexists.
Qed.

Lemma coordinates_kept f l :
  is_point f = true -> coordinates_of f = PList l -> is_kept f = true.
Proof.
  intros Hp Hc. unfold is_kept. rewrite Hp. cbn [andb].
  unfold has_coordinates, has_key. unfold coordinates_of, getitem in Hc.
  destruct (geometry_of f); try discriminate Hc.
  destruct (lookup "coordinates" d); [reflexivity | discriminate Hc].
Qed.

Lemma floors_of_cases v n :
  floors_of v = Ok n -> (truthy v = true /\ py_int v = Ok n) \/ n = 1.
Proof.
  unfold floors_of. destruct (truthy v).
  - destruct (py_int v) as [z|e]; cbn [try_except].
    + intros H; injection H as <-. now left.
    + destruct e; intros H; try discriminate H; injection H as <-; now right.
  - intros H; injection H as <-. now right.
Qed.

(** [int] raises nothing but the three errors, so the floor count is read
    unless [int] overflows. *)
Lemma floors_of_returns v :
  py_int v <> Raise OverflowError -> exists n, floors_of v = Ok n.
Proof.
  intros H. unfold floors_of. destruct (truthy v); [|now exists 1].
  destruct (py_int v) as [z|e] eqn:E; cbn [try_except]; [now exists z|].
  destruct v as [ | | |[ | | | ]| s | | ]; cbn in E;
    try discriminate E; try (injection E as <-; now exists 1);
    try (injection E as <-; congruence).
  destruct (int_of_str s); [discriminate E|]. injection E as <-. now exists 1.
Qed.

Lemma well_formed_step f : well_formed f -> feature_step [] f = Ok (entry_of f).
Proof.
  intros ((d & ->) & (g & Hg) & Hk).
  rewrite feature_step_unfold, Hg. unfold entry_of.
  destruct (is_kept (PDict d)); [|reflexivity].
  destruct (Hk eq_refl) as ((x & y & ->) & (p & ->) & Hint).
  destruct (floors_of_returns _ Hint) as (n & ->). reflexivity.
Qed.

(** The parser returns on a collection of well-formed features. *)
Lemma parse_features_returns fc items :
  features_of fc = Ok items ->
  Forall well_formed items ->
  parse_features fc = Ok (flat_map entry_of items).
Proof.
  intros Hitems Hwf. unfold parse_features. rewrite Hitems. cbn [bind].
  apply (for_each_returns items []).
  apply Forall_forall. intros f Hf. apply well_formed_step.
  rewrite Forall_forall in Hwf. now apply Hwf.
Qed.

Lemma entry_weight f b :
  In b (entry_of f) ->
  exists floors, floors_of (levels_of f) = Ok floors /\ weight b = floors * 10.
Proof.
  unfold entry_of. destruct (is_kept f); [|intros []].
  destruct (unpack2 (coordinates_of f)) as [[x y]|e]; [|intros []].
  destruct (floors_of (levels_of f)) as [n|e]; [|intros []].
  intros [<-|[]]. now exists n.
Qed.

(** Every weight the parser produces is ten times an integer. *)
Lemma parsed_weights fc out :
  parse_features fc = Ok out ->
  Forall (fun b => exists floors, weight b = floors * 10) out.
Proof.
  intros H. destruct (parse_features_items _ _ H) as (items & _ & Hloop).
  apply for_each_entries in Hloop. cbn [app] in Hloop. subst out.
  apply Forall_forall. intros b Hb. apply in_flat_map in Hb as (f & _ & Hb).
  destruct (entry_weight _ _ Hb) as (n & _ & Hw). now exists n.
Qed.



(** One Point feature at [44.0, 56.3] without a floor count: the entry is
    [56.3, 44.0, 10] and the maximum weight is 10. *)
Example single_building :
  parse_features (Examples.collection [Examples.point_feature Examples.lonlat []]) =
    Ok [{| lat := Examples.lat_563; lon := Examples.lon_440; weight := 10 |}]
  /\ max_weight_of
       [{| lat := Examples.lat_563; lon := Examples.lon_440; weight := 10 |}] = PInt 10.
Proof. split; reflexivity. Qed.

(** C3, as amended.  For a Point feature with coordinates that unpack and
    properties that are a [dict]: when the value of [building:levels] is
    true in a condition and [int] reads it as [N], the loop body appends
    the entry of weight [10 * N]; when the key is absent, or the value is
    false in a condition ([None], a zero, an empty text or container), or
    [int] raises [ValueError] or [TypeError] on it, the entry appended has
    weight 10. *)
Theorem weight_from_levels acc f longitude latitude p :
  is_point f = true -> has_coordinates f = true ->
  unpack2 (coordinates_of f) = Ok (longitude, latitude) ->
  properties_of f = PDict p ->
  (forall N, truthy (levels_of f) = true -> py_int (levels_of f) = Ok N ->
     feature_step acc f =
       Ok (acc ++ [{| lat := latitude; lon := longitude; weight := 10 * N |}]))
  /\ (lookup "building:levels" p = None
      \/ truthy (levels_of f) = false
      \/ py_int (levels_of f) = Raise ValueError
      \/ py_int (levels_of f) = Raise TypeError ->
     feature_step acc f =
       Ok (acc ++ [{| lat := latitude; lon := longitude; weight := 10 |}])).
Proof.
  intros Hp Hc Hu Hprops.
  assert (Hk : is_kept f = true) by (unfold is_kept; now rewrite Hp, Hc).
  destruct (is_kept_dicts f Hk) as (d & g & -> & Hg).
  rewrite feature_step_unfold, Hg, Hk, Hu, Hprops. cbn [bind fst snd].
  split.
  - intros N Ht Hi. unfold floors_of. rewrite Ht, Hi. cbn [try_except bind].
    now rewrite Z.mul_comm.
  - intros H.
    assert (Hf : floors_of (levels_of (PDict d)) = Ok 1).
    { unfold floors_of.
      destruct H as [H|[H|[H|H]]].
      - unfold levels_of. rewrite Hprops. cbn [get]. now rewrite H.
      - now rewrite H.
      - rewrite H. now destruct (truthy _).
      - rewrite H. now destruct (truthy _). }
    rewrite Hf. reflexivity.
Qed.

(** C3, witness: five floors written as text weigh 50, no floor count
    weighs 10. *)
Lemma weight_from_levels_witness :
  feature_step [] (Examples.point_feature Examples.lonlat (Examples.levels (PStr "5"))) =
    Ok [{| lat := Examples.lat_563; lon := Examples.lon_440; weight := 50 |}]
  /\ feature_step [] (Examples.point_feature Examples.lonlat []) =
    Ok [{| lat := Examples.lat_563; lon := Examples.lon_440; weight := 10 |}].
Proof.
  split.
  - exact (proj1 (weight_from_levels []
                    (Examples.point_feature Examples.lonlat (Examples.levels (PStr "5")))
                    Examples.lon_440 Examples.lat_563 (Examples.levels (PStr "5"))
                    eq_refl eq_refl eq_refl eq_refl) 5 eq_refl eq_refl).
  - exact (proj2 (weight_from_levels []
                    (Examples.point_feature Examples.lonlat [])
                    Examples.lon_440 Examples.lat_563 []
                    eq_refl eq_refl eq_refl eq_refl) (or_introl eq_refl)).
Defined.

(** C3, counterexample to the claim as stated: the JSON number 0 is read by
    [int] as the integer 0, yet the weight is 10 and not [10 * 0], because
    a zero is false in the condition that guards the conversion. *)
Lemma levels_zero_counterexample :
  let f := Examples.point_feature Examples.lonlat (Examples.levels (PInt 0)) in
  is_point f = true
  /\ py_int (levels_of f) = Ok 0
  /\ parse_features (Examples.collection [f]) =
       Ok [{| lat := Examples.lat_563; lon := Examples.lon_440; weight := 10 |}]
  /\ 10 <> 10 * 0.
Proof. repeat split. discriminate. Qed.

(** C4, as amended.  Whenever the parser returns, every weight is ten times
    an integer; and every weight is at least 10 provided no feature has a
    [building:levels] value that is true in a condition and that [int]
    reads as zero or a negative integer. *)
Theorem weight_at_least_ten fc out :
  parse_features fc = Ok out ->
  Forall (fun b => exists floors, weight b = 10 * floors) out
  /\ ((forall items f N,
         features_of fc = Ok items -> In f items ->
         truthy (levels_of f) = true -> py_int (levels_of f) = Ok N -> 1 <= N) ->
      Forall (fun b => 10 <= weight b) out).
Proof.
  intros H. destruct (parse_features_items _ _ H) as (items & Hitems & Hloop).
  apply for_each_entries in Hloop. cbn [app] in Hloop. subst out.
  split.
  - apply Forall_forall. intros b Hb. apply in_flat_map in Hb as (f & _ & Hb).
    destruct (entry_weight _ _ Hb) as (n & _ & Hw). exists n. lia.
  - intros Hpos. apply Forall_forall. intros b Hb.
    apply in_flat_map in Hb as (f & Hf & Hb).
    destruct (entry_weight _ _ Hb) as (n & Hn & Hw).
    destruct (floors_of_cases _ _ Hn) as [[Ht Hi]| ->].
    + specialize (Hpos items f n Hitems Hf Ht Hi). lia.
    + lia.
Qed.

(** C4, witness: a building of five floors. *)
Lemma weight_at_least_ten_witness :
  Forall (fun b => 10 <= weight b)
    [{| lat := Examples.lat_563; lon := Examples.lon_440; weight := 50 |}].
Proof.
  refine (proj2 (weight_at_least_ten
            (Examples.collection
               [Examples.point_feature Examples.lonlat (Examples.levels (PStr "5"))])
            _ eq_refl) _).
  intros items f N Hitems Hin Ht Hi.
  injection Hitems as <-. destruct Hin as [<-|[]].
  injection Hi as <-. lia.
Defined.

(** C4, counterexample to the claim as stated: the text "0" is not empty,
    [int] reads it as 0, and the weight produced is 0. *)
Lemma levels_text_zero_counterexample :
  parse_features
    (Examples.collection
       [Examples.point_feature Examples.lonlat (Examples.levels (PStr "0"))]) =
    Ok [{| lat := Examples.lat_563; lon := Examples.lon_440; weight := 0 |}]
  /\ ~ Forall (fun b => 10 <= weight b)
        [{| lat := Examples.lat_563; lon := Examples.lon_440; weight := 0 |}].
Proof.
  split; [reflexivity|].
  intros H. inversion H as [|b l Hb _]. cbn in Hb. lia.
Qed.




(** C8.  Whenever the parser returns, its output is the entries of the
    features concatenated in the order of the features, each feature giving
    at most one entry; and a Point feature with coordinates [[lon, lat]]
    gives the entry [[lat, lon, weight]]. *)
Theorem output_in_feature_order fc out :
  parse_features fc = Ok out ->
  exists items,
    features_of fc = Ok items
    /\ out = flat_map entry_of items
    /\ (forall f, List.length (entry_of f) <= 1)%nat
    /\ forall f longitude latitude,
         In f items -> is_point f = true ->
         coordinates_of f = PList [longitude; latitude] ->
         exists w, entry_of f = [{| lat := latitude; lon := longitude; weight := w |}].
Proof.
  intros H. destruct (parse_features_items _ _ H) as (items & Hitems & Hloop).
  exists items. split; [exact Hitems|]. split; [|split].
  - apply for_each_entries in Hloop. exact Hloop.
  - exact entry_of_short.
  - intros f x y Hin Hp Hc.
    pose proof (for_each_steps _ _ _ Hloop) as Hsteps.
    rewrite Forall_forall in Hsteps. specialize (Hsteps f Hin).
    pose proof (coordinates_kept _ _ Hp Hc) as Hk.
    revert Hsteps. rewrite feature_step_unfold. unfold entry_of.
    rewrite Hk, Hc.
    destruct f; try discriminate.
    destruct (geometry_of (PDict d)); try discriminate.
    cbn [unpack2 iter bind fst snd].
    destruct (properties_of (PDict d)); try discriminate.
    destruct (floors_of (levels_of (PDict d))) as [n|e]; [|discriminate].
    intros _. now exists (n * 10).
Qed.

(** C8, witness: three features, the second one skipped. *)
Lemma output_in_feature_order_witness :
  exists items,
    features_of (Examples.collection
                   [Examples.point_feature Examples.lonlat (Examples.levels (PStr "5"));
                    Examples.point_without_coordinates;
                    Examples.point_feature Examples.lonlat []]) = Ok items
    /\ [{| lat := Examples.lat_563; lon := Examples.lon_440; weight := 50 |};
        {| lat := Examples.lat_563; lon := Examples.lon_440; weight := 10 |}] =
       flat_map entry_of items
    /\ (forall f, List.length (entry_of f) <= 1)%nat
    /\ forall f longitude latitude,
         In f items -> is_point f = true ->
         coordinates_of f = PList [longitude; latitude] ->
         exists w, entry_of f = [{| lat := latitude; lon := longitude; weight := w |}].
Proof.
  exact (output_in_feature_order
           (Examples.collection
              [Examples.point_feature Examples.lonlat (Examples.levels (PStr "5"));
               Examples.point_without_coordinates;
               Examples.point_feature Examples.lonlat []])
           _ eq_refl).
Defined.

(** C10.  A collection that holds a Point feature whose coordinates are an
    array of a length other than 2 makes the parser raise: the parser
    returns only if every such array has exactly two elements. *)
Theorem bad_coordinates_raise fc items f l :
  features_of fc = Ok items ->
  In f items ->
  is_point f = true ->
  coordinates_of f = PList l ->
  List.length l <> 2%nat ->
  exists e, parse_features fc = Raise e.
Proof.
  intros Hitems Hin Hp Hc Hlen.
  destruct (parse_features fc) as [out|e] eqn:Hparse; [|now exists e].
  exfalso.
  destruct (parse_features_items _ _ Hparse) as (items' & Hitems' & Hloop).
  rewrite Hitems in Hitems'. injection Hitems' as <-.
  pose proof (for_each_steps _ _ _ Hloop) as Hsteps.
  rewrite Forall_forall in Hsteps. specialize (Hsteps f Hin).
  pose proof (coordinates_kept _ _ Hp Hc) as Hk.
  revert Hsteps. rewrite feature_step_unfold, Hk, Hc.
  destruct f; try discriminate.
  destruct (geometry_of (PDict d)); try discriminate.
  destruct l as [|a [|b [|c l]]]; cbn [unpack2 iter bind]; try discriminate.
  cbn in Hlen. lia.
Qed.

(** C10, witness: a point with an altitude. *)
Lemma bad_coordinates_raise_witness :
  exists e,
    parse_features
      (Examples.collection
         [Examples.point_feature
            (PList [Examples.lon_440; Examples.lat_563; PInt 120]) []]) = Raise e.
Proof.
  apply (bad_coordinates_raise _
           [Examples.point_feature
              (PList [Examples.lon_440; Examples.lat_563; PInt 120]) []]
           (Examples.point_feature
              (PList [Examples.lon_440; Examples.lat_563; PInt 120]) [])
           [Examples.lon_440; Examples.lat_563; PInt 120]).
  - reflexivity.
  - left. reflexivity.
  - reflexivity.
  - reflexivity.
  - discriminate.
Defined.

(** The exception is [ValueError], also after a feature that parsed. *)
Example altitude_raises_ValueError :
  parse_features
    (Examples.collection
       [Examples.point_feature Examples.lonlat [];
        Examples.point_feature
          (PList [Examples.lon_440; Examples.lat_563; PInt 120]) []]) = Raise ValueError.
Proof. reflexivity. Qed.

(** ** Binary64 arithmetic of the heat map value *)

Lemma digits2_size p : digits2_pos p = Pos.size p.
Proof. induction p; cbn; congruence. Qed.

Lemma digits2_log2 p : Zpos (digits2_pos p) = Z.log2 (Zpos p) + 1.
Proof. rewrite digits2_size. destruct p; cbn; lia. Qed.

Lemma digits2_bounds p :
  2 ^ (Zpos (digits2_pos p) - 1) <= Zpos p < 2 ^ Zpos (digits2_pos p).
Proof.
  rewrite digits2_log2.
  pose proof (Z.log2_spec (Zpos p) ltac:(lia)) as H.
  replace (Z.log2 (Zpos p) + 1 - 1) with (Z.log2 (Zpos p)) by lia.
  replace (Z.log2 (Zpos p) + 1) with (Z.succ (Z.log2 (Zpos p))) by lia.
  exact H.
Qed.

Lemma digits2_unique p d :
  2 ^ (d - 1) <= Zpos p < 2 ^ d -> Zpos (digits2_pos p) = d.
Proof.
  intros H. rewrite digits2_log2.
  assert (0 < d).
  { destruct (Z.le_gt_cases d 0) as [Hd|Hd]; [|exact Hd].
    exfalso. destruct (Z.eq_dec d 0) as [->|Hn].
    - cbn in H. lia.
    - rewrite (Z.pow_neg_r 2 d) in H by lia. lia. }
  rewrite (Z.log2_unique (Zpos p) (d - 1)); [lia|lia|].
  replace (Z.succ (d - 1)) with d by lia. exact H.
Qed.

Lemma iter_xO p k : Zpos (Pos.iter xO p k) = Zpos p * 2 ^ Zpos k.
Proof.
  induction k using Pos.peano_ind.
  - cbn. lia.
  - rewrite Pos.iter_succ, Pos2Z.inj_succ, Z.pow_succ_r by lia.
    rewrite Pos2Z.inj_xO, IHk. lia.
Qed.

(** A mantissa of 53 digits with an exponent in range is left as it is. *)
Lemma round_canonical s m e :
  Zpos (digits2_pos m) = 53 -> -1074 <= e <= 971 ->
  binary_round_aux prec emax s (Zpos m) e loc_Exact = S754_finite s m e.
Proof.
  intros Hd He.
  unfold binary_round_aux, shr_fexp, fexp, emin, prec, emax.
  cbn [Zdigits2 shr_record_of_loc]. rewrite Hd.
  replace (Z.max (53 + e - 53) (3 - 1024 - 53) - e) with 0 by lia.
  cbn [shr shr_m loc_of_shr_record round_nearest_even Zdigits2].
  rewrite Hd.
  replace (Z.max (53 + e - 53) (3 - 1024 - 53) - e) with 0 by lia.
  cbn [shr shr_m].
  replace (e <=? 1024 - 53) with true by (symmetry; apply Z.leb_le; lia).
  reflexivity.
Qed.

Lemma pow2_split a b : 0 <= b <= a -> 2 ^ a = 2 ^ (a - b) * 2 ^ b.
Proof. intros H. rewrite <- Z.pow_add_r by lia. f_equal. lia. Qed.

Lemma pow2_pos a : 0 <= a -> 0 < 2 ^ a.
Proof. intros H. apply Z.pow_pos_nonneg; lia. Qed.

(** An integer whose mantissa fits 53 digits is converted exactly: the
    mantissa is the integer shifted left to 53 digits. *)
Lemma binary_round_int s p k :
  0 <= k -> 2 ^ 52 <= Zpos p * 2 ^ k < 2 ^ 53 ->
  binary_round prec emax s p 0 = S754_finite s (Z.to_pos (Zpos p * 2 ^ k)) (- k).
Proof.
  intros Hk Hp.
  pose proof (pow2_pos k Hk) as Hpos.
  assert (Hk53 : k < 53).
  { destruct (Z.lt_ge_cases k 53) as [H|H]; [exact H|exfalso].
    assert (2 ^ 53 <= 2 ^ k) by (apply Z.pow_le_mono_r; lia). nia. }
  assert (Hd : Zpos (digits2_pos p) = 53 - k).
  { apply digits2_unique.
    rewrite (pow2_split 53 k), (pow2_split 52 k) in Hp by lia.
    replace (53 - k - 1) with (52 - k) by lia. nia. }
  unfold binary_round, fexp, emin. rewrite Hd. unfold prec at 1 2, emax at 1.
  replace (Z.max (53 - k + 0 - 53) (3 - 1024 - 53)) with (- k) by lia.
  unfold shl_align.
  destruct k as [|kp|kp]; [| |lia].
  - cbn [Z.opp Z.sub Z.pow]. rewrite Z.mul_1_r. cbn [Z.to_pos].
    apply round_canonical; [rewrite Hd; reflexivity|lia].
  - cbn [Z.opp Z.sub Z.add Z.pos_sub]. 
    assert (Hm : Zpos (Pos.iter xO p kp) = Zpos p * 2 ^ Zpos kp) by apply iter_xO.
    rewrite <- Hm. cbn [Z.to_pos].
    apply round_canonical; [|lia].
    apply digits2_unique. rewrite Hm. cbn. cbn in Hp. lia.
Qed.

Lemma iter_pos_nat {A} (f : A -> A) p : forall x,
  iter_pos f p x = Nat.iter (Pos.to_nat p) f x.
Proof.
  induction p as [p IH|p IH|]; intros x; cbn [iter_pos].
  - rewrite !IH, Pos2Nat.inj_xI.
    replace (S (2 * Pos.to_nat p)) with (Pos.to_nat p + (Pos.to_nat p + 1))%nat by lia.
    rewrite !Nat.iter_add. reflexivity.
  - rewrite !IH, Pos2Nat.inj_xO.
    replace (2 * Pos.to_nat p)%nat with (Pos.to_nat p + Pos.to_nat p)%nat by lia.
    rewrite Nat.iter_add. reflexivity.
  - reflexivity.
Qed.

Lemma shr_1_nonneg m r s :
  0 <= m ->
  shr_1 {| shr_m := m; shr_r := r; shr_s := s |} =
    {| shr_m := m / 2; shr_r := Z.odd m; shr_s := r || s |}.
Proof.
  intros Hm. unfold shr_1.
  destruct m as [|[p|p|]|p]; try lia; try reflexivity.
  - rewrite Pos2Z.inj_xI. 
    replace ((2 * Zpos p + 1) / 2) with (Zpos p) by (apply Z.div_unique with 1; lia).
    reflexivity.
  - rewrite Pos2Z.inj_xO.
    replace ((2 * Zpos p) / 2) with (Zpos p) by (apply Z.div_unique with 0; lia).
    reflexivity.
Qed.

(** Shifting right by [k + 1] digits: the mantissa is divided and the round
    digit is the last digit shifted out. *)
Lemma shr_iter m k : 0 <= m -> forall r s,
  let mrs := Nat.iter (S k) shr_1 {| shr_m := m; shr_r := r; shr_s := s |} in
  shr_m mrs = m / 2 ^ Z.of_nat (S k) /\ shr_r mrs = Z.odd (m / 2 ^ Z.of_nat k).
Proof.
  intros Hm. induction k as [|k IH]; intros r s.
  - cbn [Nat.iter]. rewrite shr_1_nonneg by exact Hm. cbn [shr_m shr_r].
    cbn [Z.of_nat Z.pow]. rewrite Z.div_1_r. split; reflexivity.
  - cbn zeta in *. specialize (IH r s).
    remember (Nat.iter (S k) shr_1 {| shr_m := m; shr_r := r; shr_s := s |}) as mrs eqn:E.
    change (Nat.iter (S (S k)) shr_1 {| shr_m := m; shr_r := r; shr_s := s |})
      with (shr_1 (Nat.iter (S k) shr_1 {| shr_m := m; shr_r := r; shr_s := s |})).
    rewrite <- E. destruct mrs as [m' r' s']. cbn [shr_m shr_r] in IH.
    destruct IH as [-> ->].
    assert (Hp : 0 < 2 ^ Z.of_nat (S k)) by (apply pow2_pos; lia).
    rewrite shr_1_nonneg by (apply Z.div_pos; lia).
    cbn [shr_m shr_r]. split; [|reflexivity].
    rewrite Z.div_div by lia.
    f_equal. replace (Z.of_nat (S (S k))) with (Z.succ (Z.of_nat (S k))) by lia.
    rewrite Z.pow_succ_r by lia. lia.
Qed.

(** Rounding a product whose discarded digits stay below half a unit in
    the last place drops them. *)
Lemma round_down s P e n M R :
  0 < n -> 2 ^ 52 <= Zpos M < 2 ^ 53 ->
  Zpos P = Zpos M * 2 ^ n + R -> 0 <= R < 2 ^ (n - 1) ->
  -1074 <= e + n <= 971 ->
  binary_round_aux prec emax s (Zpos P) e loc_Exact = S754_finite s M (e + n).
Proof.
  intros Hn HM HP HR He.
  assert (Hpn1 : 0 < 2 ^ (n - 1)) by (apply pow2_pos; lia).
  assert (Hpn : 2 ^ n = 2 * 2 ^ (n - 1)).
  { replace n with (Z.succ (n - 1)) at 1 by lia. apply Z.pow_succ_r. lia. }
  assert (HdM : Zpos (digits2_pos M) = 53) by (apply digits2_unique; exact HM).
  assert (HdP : Zpos (digits2_pos P) = 53 + n).
  { apply digits2_unique.
    replace (53 + n - 1) with (52 + n) by lia.
    rewrite !Z.pow_add_r by lia. nia. }
  unfold binary_round_aux.
  unfold shr_fexp at 1. unfold fexp at 1, emin.
  cbn [Zdigits2 shr_record_of_loc]. rewrite HdP. unfold prec at 1 2, emax at 1.
  replace (Z.max (53 + n + e - 53) (3 - 1024 - 53) - e) with n by lia.
  destruct n as [|np|np]; try lia.
  cbn [shr]. rewrite iter_pos_nat.
  destruct (Pos2Nat.is_succ np) as [k Hk]. rewrite Hk.
  pose proof (shr_iter (Zpos P) k ltac:(lia) false false) as Hit.
  cbn zeta in Hit.
  assert (HkZ : Z.of_nat (S k) = Zpos np) by (rewrite <- Hk; apply positive_nat_Z).
  assert (HkZ' : Z.of_nat k = Zpos np - 1) by lia.
  rewrite HkZ, HkZ' in Hit.
  destruct (Nat.iter (S k) shr_1 _) as [m' r' s'].
  cbn [shr_m shr_r] in Hit. destruct Hit as [Hm' Hr'].
  assert (Hdiv : Zpos P / 2 ^ Zpos np = Zpos M).
  { symmetry. apply Z.div_unique with R; lia. }
  assert (Hdiv' : Zpos P / 2 ^ (Zpos np - 1) = 2 * Zpos M).
  { symmetry. apply Z.div_unique with R; nia. }
  rewrite Hdiv in Hm'. rewrite Hdiv', Z.odd_mul in Hr'.
  change (Z.odd 2) with false in Hr'. cbn [andb] in Hr'. subst m' r'.
  assert (Hrnd : round_nearest_even (Zpos M)
                   (loc_of_shr_record {| shr_m := Zpos M; shr_r := false; shr_s := s' |})
                 = Zpos M) by now destruct s'.
  cbn [shr_m]. rewrite Hrnd.
  unfold shr_fexp, fexp, emin. cbn [Zdigits2 shr_record_of_loc]. rewrite HdM.
  unfold prec, emax.
  replace (Z.max (53 + (e + Zpos np) - 53) (3 - 1024 - 53) - (e + Zpos np)) with 0 by lia.
  cbn [shr shr_m].
  replace (e + Zpos np <=? 1024 - 53) with true by (symmetry; apply Z.leb_le; lia).
  reflexivity.
Qed.

Lemma normalise p :
  Zpos p < 2 ^ 53 -> exists k, 0 <= k /\ 2 ^ 52 <= Zpos p * 2 ^ k < 2 ^ 53.
Proof.
  intros Hp. pose proof (digits2_bounds p) as Hb.
  set (d := Zpos (digits2_pos p)) in *.
  assert (Hd : d <= 53).
  { destruct (Z.le_gt_cases d 53) as [H|H]; [exact H|exfalso].
    assert (2 ^ 53 <= 2 ^ (d - 1)) by (apply Z.pow_le_mono_r; lia). lia. }
  exists (53 - d). split; [lia|].
  assert (0 < d) by (unfold d; lia).
  rewrite (pow2_split 52 (53 - d)), (pow2_split 53 (53 - d)) by lia.
  replace (52 - (53 - d)) with (d - 1) by lia.
  replace (53 - (53 - d)) with d by lia.
  pose proof (pow2_pos (53 - d) ltac:(lia)). nia.
Qed.

Lemma float_lit_04 : float_lit 4 1 = S754_finite false 7205759403792794 (-54).
Proof. vm_compute. reflexivity. Qed.

(** The product with 0.4 of a multiple of ten below 2^53 is computed
    without error. *)
Lemma mul_04_round s fp :
  Zpos fp * 10 < 2 ^ 53 ->
  SFmul prec emax (binary_round prec emax s (fp * 10) 0) (float_lit 4 1) =
  binary_round prec emax s (fp * 4) 0.
Proof.
  intros Hw.
  destruct (normalise (fp * 10) ltac:(lia)) as (k & Hk & Hn).
  rewrite (binary_round_int s (fp * 10) k Hk Hn), float_lit_04.
  set (t := Zpos fp * 2 ^ k).
  assert (Ht : Zpos (fp * 10) * 2 ^ k = 10 * t) by (unfold t; lia).
  rewrite Ht in *.
  change (2 ^ 52) with 4503599627370496 in Hn.
  change (2 ^ 53) with 9007199254740992 in Hn.
  assert (Ht0 : 0 < t) by lia.
  cbn [SFmul]. rewrite Bool.xorb_false_r.
  assert (HP : Zpos (Z.to_pos (10 * t) * 7205759403792794) = t * 72057594037927940).
  { rewrite Pos2Z.inj_mul, Z2Pos.id by lia. lia. }
  assert (Hcase : exists j, (j = 1 \/ j = 2) /\ 2 ^ 52 <= 4 * t * 2 ^ j < 2 ^ 53).
  { change (2 ^ 52) with 4503599627370496. change (2 ^ 53) with 9007199254740992.
    destruct (Z.lt_ge_cases (4 * t) 2251799813685248) as [H|H].
    - exists 2. split; [now right|]. change (2 ^ 2) with 4. lia.
    - exists 1. split; [now left|]. change (2 ^ 1) with 2. lia. }
  destruct Hcase as (j & Hj & HM).
  assert (Hpj : 2 ^ (k + j) = 2 ^ k * 2 ^ j) by (apply Z.pow_add_r; lia).
  assert (Hr : binary_round prec emax s (fp * 4) 0 =
               S754_finite s (Z.to_pos (4 * t * 2 ^ j)) (- (k + j))).
  { replace (4 * t * 2 ^ j) with (Zpos (fp * 4) * 2 ^ (k + j))
      by (rewrite Hpj; unfold t; lia).
    apply binary_round_int; [lia|].
    rewrite Hpj. replace (Zpos (fp * 4) * (2 ^ k * 2 ^ j)) with (4 * t * 2 ^ j)
      by (unfold t; lia).
    exact HM. }
  rewrite Hr.
  replace (- (k + j)) with ((- k + -54) + (54 - j)) by lia.
  apply round_down with (R := 4 * t).
  - lia.
  - rewrite Z2Pos.id by lia. exact HM.
  - rewrite HP, Z2Pos.id by lia.
    destruct Hj as [-> | ->].
    + change (2 ^ 1) with 2. change (2 ^ (54 - 1)) with 9007199254740992. lia.
    + change (2 ^ 2) with 4. change (2 ^ (54 - 2)) with 4503599627370496. lia.
  - change (2 ^ 52) with 4503599627370496 in HM.
    change (2 ^ 53) with 9007199254740992 in HM.
    destruct Hj as [-> | ->].
    + change (2 ^ 1) with 2 in HM. change (2 ^ (54 - 1 - 1)) with 4503599627370496. lia.
    + change (2 ^ 2) with 4 in HM. change (2 ^ (54 - 2 - 1)) with 2251799813685248. lia.
  - assert (k < 53).
    { destruct (Z.lt_ge_cases k 53) as [H|H]; [exact H|exfalso].
      assert (2 ^ 53 <= 2 ^ k) by (apply Z.pow_le_mono_r; lia).
      change (2 ^ 53) with 9007199254740992 in *. unfold t in Hn. nia. }
    lia.
Qed.

Lemma mul_04_exact f :
  - 2 ^ 53 < f * 10 < 2 ^ 53 ->
  SFmul prec emax (Z2SF (f * 10)) (float_lit 4 1) = Z2SF (f * 4).
Proof.
  intros H. destruct f as [|fp|fp].
  - vm_compute. reflexivity.
  - change (Z2SF (Zpos fp * 10)) with (binary_round prec emax false (fp * 10) 0).
    change (Z2SF (Zpos fp * 4)) with (binary_round prec emax false (fp * 4) 0).
    apply mul_04_round. lia.
  - change (Z2SF (Zneg fp * 10)) with (binary_round prec emax true (fp * 10) 0).
    change (Z2SF (Zneg fp * 4)) with (binary_round prec emax true (fp * 4) 0).
    apply mul_04_round. lia.
Qed.

Lemma binary_round_value s p :
  Zpos p < 2 ^ 53 ->
  exists q, SF2Q (binary_round prec emax s p 0) = Some q
            /\ (q == inject_Z (cond_Zopp s (Zpos p)))%Q.
Proof.
  intros Hp. destruct (normalise p Hp) as (k & Hk & Hn).
  rewrite (binary_round_int s p k Hk Hn). cbn [SF2Q].
  eexists. split; [reflexivity|].
  assert (Hc : cond_Zopp s (Zpos (Z.to_pos (Zpos p * 2 ^ k)))
               = cond_Zopp s (Zpos p) * 2 ^ k).
  { rewrite Z2Pos.id by lia. destruct s; cbn [cond_Zopp]; lia. }
  rewrite Hc, inject_Z_mult, Zpower_Qpower, Qpower_opp by lia.
  change (inject_Z 2) with 2%Q.
  field. apply Qpower_not_0. discriminate.
Qed.

(** An integer below 2^53 in absolute value is a binary64 number. *)
Lemma Z2SF_value n :
  - 2 ^ 53 < n < 2 ^ 53 ->
  exists q, SF2Q (Z2SF n) = Some q /\ (q == inject_Z n)%Q.
Proof.
  intros H. destruct n as [|p|p].
  - exists 0%Q. split; reflexivity.
  - apply (binary_round_value false p). lia.
  - apply (binary_round_value true p). lia.
Qed.

Lemma fold_max_spec rest : forall x,
  let m := fold_left Z.max rest x in
  (m = x \/ In m rest) /\ x <= m /\ forall y, In y rest -> y <= m.
Proof.
  induction rest as [|z rest IH]; intros x; cbn [fold_left].
  - cbn. repeat split; [now left | lia | intros y []].
  - specialize (IH (Z.max x z)). cbn zeta in *.
    set (m := fold_left Z.max rest (Z.max x z)) in *.
    destruct IH as (Hin & Hle & Hall). repeat split.
    + destruct Hin as [Hm|Hm]; [|right; now right].
      destruct (Z.max_spec x z) as [[_ E]|[_ E]]; rewrite E in Hm.
      * right. now left.
      * now left.
    + lia.
    + intros y [<-|Hy]; [lia|now apply Hall].
Qed.

Lemma max_weight_of_spec bd :
  bd <> [] -> exists m, max_weight_of bd = PInt m /\ is_max_weight m bd.
Proof.
  destruct bd as [|b rest]; [congruence|intros _].
  unfold max_weight_of. cbn [map df_max].
  pose proof (fold_max_spec (map weight rest) (weight b)) as H. cbn zeta in H.
  set (m := fold_left Z.max (map weight rest) (weight b)) in *.
  destruct H as (Hin & Hle & Hall).
  exists m. split; [reflexivity|]. split.
  - destruct Hin as [Hm|Hm].
    + exists b. split; [now left|now symmetry].
    + apply in_map_iff in Hm as (c & Hc & Hin). exists c. split; [now right|exact Hc].
  - intros c [<-|Hc]; [exact Hle|]. apply Hall. now apply in_map.
Qed.

Lemma is_max_weight_unique m m' bd :
  is_max_weight m bd -> is_max_weight m' bd -> m = m'.
Proof.
  intros [(b & Hb & <-) Hm] [(b' & Hb' & <-) Hm'].
  specialize (Hm b' Hb'). specialize (Hm' b Hb). lia.
Qed.

Lemma max_weight_of_max l1 b l2 :
  (forall c, In c (l1 ++ l2) -> weight c <= weight b) ->
  max_weight_of (l1 ++ b :: l2) = PInt (weight b).
Proof.
  intros Hle.
  destruct (max_weight_of_spec (l1 ++ b :: l2)) as (m & -> & Hm).
  { now destruct l1. }
  f_equal. apply (is_max_weight_unique _ _ _ Hm). split.
  - exists b. split; [apply in_elt|reflexivity].
  - intros c Hc. apply in_app_or in Hc as [Hc|[<-|Hc]];
      [apply Hle, in_or_app; now left | lia | apply Hle, in_or_app; now right].
Qed.

(** The value of the heat map for a maximum weight of [floors * 10]. *)
Lemma heat_value_exact bd floors :
  max_weight_of bd = PInt (floors * 10) ->
  - 2 ^ 53 < floors * 10 < 2 ^ 53 ->
  exists q, heat_value bd = Some q /\ (q == (4 # 10) * inject_Z (floors * 10))%Q.
Proof.
  intros Hmax Hr. unfold heat_value, heat_max_val. rewrite Hmax.
  cbn [mul_float]. unfold int_to_float.
  destruct (Z2SF_value (floors * 10) Hr) as (q0 & Hq0 & _).
  destruct (Z2SF_value (floors * 4) ltac:(lia)) as (q & Hq & Hv).
  pose proof (mul_04_exact floors Hr) as Hmul.
  destruct (Z2SF (floors * 10)) eqn:E; try discriminate Hq0;
    cbn [bind]; rewrite Hmul; (exists q; split; [exact Hq|]);
    rewrite Hv, !inject_Z_mult; unfold Qeq; cbn [Qnum Qden Qmult inject_Z]; lia.
Qed.

(** C6, as amended.  For every non-empty table of parsed buildings (weights
    that are ten times an integer), [max_weight] is the greatest weight in
    the table; when it is below 2^53 in absolute value, [max_val] is exactly
    0.4 times the maximum weight; and multiplying the floor count of a
    building of maximum weight by a factor [r] multiplies [max_val] by [r],
    provided the building still has the greatest weight afterwards and that
    weight stays below 2^53. *)
Theorem heat_value_of_max_weight bd :
  bd <> [] ->
  Forall (fun b => exists floors, weight b = floors * 10) bd ->
  exists m,
    max_weight_of bd = PInt m
    /\ is_max_weight m bd
    /\ (- 2 ^ 53 < m < 2 ^ 53 ->
        exists q,
          heat_value bd = Some q
          /\ (q == (4 # 10) * inject_Z m)%Q
          /\ forall l1 b l2 floors floors' r,
               bd = l1 ++ b :: l2 ->
               weight b = floors * 10 -> floors * 10 = m ->
               (inject_Z floors' == r * inject_Z floors)%Q ->
               (forall c, In c (l1 ++ l2) -> weight c <= floors' * 10) ->
               - 2 ^ 53 < floors' * 10 < 2 ^ 53 ->
               exists q',
                 heat_value (l1 ++ with_floors b floors' :: l2) = Some q'
                 /\ (q' == r * q)%Q).
Proof.
  intros Hne Hten.
  destruct (max_weight_of_spec bd Hne) as (m & Hmax & Hm).
  exists m. split; [exact Hmax|]. split; [exact Hm|]. intros Hr.
  destruct Hm as [(b0 & Hb0 & Hw0) _].
  rewrite Forall_forall in Hten. destruct (Hten b0 Hb0) as (f0 & Hf0).
  assert (Em : m = f0 * 10) by lia. clear Hw0. subst m.
  destruct (heat_value_exact bd f0 Hmax Hr) as (q & Hq & Hv).
  exists q. split; [exact Hq|]. split; [exact Hv|].
  intros l1 b l2 floors floors' r -> Hb Hfl Hfac Hle Hr'.
  assert (Hmax' : max_weight_of (l1 ++ with_floors b floors' :: l2) = PInt (floors' * 10)).
  { apply (max_weight_of_max l1 (with_floors b floors') l2). exact Hle. }
  destruct (heat_value_exact _ floors' Hmax' Hr') as (q' & Hq' & Hv').
  exists q'. split; [exact Hq'|].
  rewrite Hv', Hv, <- Hfl, !inject_Z_mult, Hfac. ring.
Qed.

(** C6, witness: the table of a five-floor and a one-floor building. *)
Lemma heat_value_of_max_weight_witness :
  exists m,
    max_weight_of
      [ {| lat := Examples.lat_563; lon := Examples.lon_440; weight := 50 |};
        {| lat := Examples.lat_563; lon := Examples.lon_440; weight := 10 |} ] = PInt m
    /\ is_max_weight m
         [ {| lat := Examples.lat_563; lon := Examples.lon_440; weight := 50 |};
           {| lat := Examples.lat_563; lon := Examples.lon_440; weight := 10 |} ]
    /\ (- 2 ^ 53 < m < 2 ^ 53 ->
        exists q,
          heat_value
            [ {| lat := Examples.lat_563; lon := Examples.lon_440; weight := 50 |};
              {| lat := Examples.lat_563; lon := Examples.lon_440; weight := 10 |} ] = Some q
          /\ (q == (4 # 10) * inject_Z m)%Q
          /\ forall l1 b l2 floors floors' r,
               [ {| lat := Examples.lat_563; lon := Examples.lon_440; weight := 50 |};
                 {| lat := Examples.lat_563; lon := Examples.lon_440; weight := 10 |} ]
               = l1 ++ b :: l2 ->
               weight b = floors * 10 -> floors * 10 = m ->
               (inject_Z floors' == r * inject_Z floors)%Q ->
               (forall c, In c (l1 ++ l2) -> weight c <= floors' * 10) ->
               - 2 ^ 53 < floors' * 10 < 2 ^ 53 ->
               exists q',
                 heat_value (l1 ++ with_floors b floors' :: l2) = Some q'
                 /\ (q' == r * q)%Q).
Proof.
  apply heat_value_of_max_weight.
  - discriminate.
  - repeat constructor; [exists 5 | exists 1]; reflexivity.
Defined.

(** C6, counterexample to the claim as stated.  Halving the ten floors of
    the tallest building leaves the eight-floor building as the maximum:
    the value goes from 40 to 32, not to 20.  And for a floor count beyond
    2^53 the product is rounded: the value is not 0.4 times the weight. *)
Lemma heat_value_counterexample :
  let b10 := {| lat := Examples.lat_563; lon := Examples.lon_440; weight := 10 * 10 |} in
  let b8 := {| lat := Examples.lat_563; lon := Examples.lon_440; weight := 8 * 10 |} in
  let tower :=
    {| lat := Examples.lat_563; lon := Examples.lon_440;
       weight := 9007199254740993 * 10 |} in
  (exists q q',
     heat_value [b10; b8] = Some q
     /\ heat_value [with_floors b10 5; b8] = Some q'
     /\ (q == 40)%Q /\ (q' == 32)%Q
     /\ (inject_Z 5 == (1 # 2) * inject_Z 10)%Q
     /\ ~ (q' == (1 # 2) * q)%Q)
  /\ (exists q,
        heat_value [tower] = Some q
        /\ ~ (q == (4 # 10) * inject_Z (weight tower))%Q).
Proof.
  cbn zeta. split.
  - eexists. eexists. split; [vm_compute; reflexivity|].
    split; [vm_compute; reflexivity|].
    split; [reflexivity|]. split; [reflexivity|]. split; [reflexivity|].
    intros H. vm_compute in H. discriminate H.
  - eexists. split; [vm_compute; reflexivity|].
    intros H. vm_compute in H. discriminate H.
Qed.

(** ** The script *)

Lemma effect_nil st : effect st [] [] [] = st.
Proof. destruct st. unfold effect. cbn. now rewrite !app_nil_r. Qed.

Lemma effect_effect st o1 l1 f1 o2 l2 f2 :
  effect (effect st o1 l1 f1) o2 l2 f2 = effect st (o1 ++ o2) (l1 ++ l2) (f1 ++ f2).
Proof. unfold effect. cbn. now rewrite !app_assoc. Qed.

Lemma print_run m st : print m st = (Ok tt, effect st [m] [] []).
Proof. unfold print, effect. now rewrite !app_nil_r. Qed.

Lemma add_child_run c st : add_child c st = (Ok tt, effect st [] [c] []).
Proof. unfold add_child, effect. now rewrite !app_nil_r. Qed.

Lemma save_run m path st : save m path st = (Ok tt, effect st [] [] [(path, m)]).
Proof. unfold save, effect. now rewrite !app_nil_r. Qed.

Lemma add_boundary_layer_run b st :
  add_boundary_layer b st = (Ok tt, effect st (boundary_added b) (boundary_layers b) []).
Proof.
  destruct b as [boundary|]; cbn [add_boundary_layer boundary_added boundary_layers].
  - unfold bindM. now rewrite add_child_run, print_run, effect_effect.
  - unfold ret. now rewrite effect_nil.
Qed.

Lemma save_boundary_map_run b st :
  save_boundary_map b st = (Ok tt, effect st (boundary_saved b) [] (boundary_docs b)).
Proof.
  destruct b as [boundary|]; cbn [save_boundary_map boundary_saved boundary_docs].
  - unfold bindM. now rewrite print_run, save_run, print_run, !effect_effect.
  - unfold ret. now rewrite effect_nil.
Qed.

Lemma print_settings_run st :
  print_settings st = (Ok tt, effect st (map SettingsLine (seq 0 6)) [] []).
Proof.
  unfold print_settings, bindM. now rewrite !print_run, !effect_effect.
Qed.

Lemma has_layer_app name l1 l2 :
  has_layer name (l1 ++ l2) = has_layer name l1 || has_layer name l2.
Proof. apply existsb_app. Qed.

Lemma marker_layers_other name name' r :
  String.eqb name' name = false -> has_layer name (marker_layers name' r) = false.
Proof.
  intros H. destruct r; cbn [marker_layers has_layer existsb is_group]; [|reflexivity].
  now rewrite H.
Qed.

Lemma boundary_layers_other name b :
  String.eqb boundary_layer_name name = false ->
  has_layer name (boundary_layers b) = false.
Proof.
  intros H.
  destruct b; cbn [boundary_layers has_layer existsb is_group city_boundary_layer];
    [|reflexivity].
  now rewrite H.
Qed.

(** A CSV file that cannot be read fails the marker block with the same
    exception. *)
Lemma load_markers_read_error w path ic e :
  read_csv w path = Raise e -> load_markers w path ic = Raise e.
Proof. intros H. unfold load_markers. now rewrite H. Qed.

(** A table the filter accepts has the column ['admin_level']. *)
Lemma filter_polygons_columns df pf :
  filter_polygons df = Ok pf ->
  existsb (String.eqb "admin_level") (columns pf) = true.
Proof.
  unfold filter_polygons, column.
  destruct (existsb (String.eqb "name") (columns df)); [|discriminate].
  cbn [bind].
  destruct (existsb (String.eqb "admin_level") (columns df)) eqn:E; [|discriminate].
  cbn [bind]. intros H. injection H as <-. exact E.
Qed.

(** The heat map the constructor returns goes into the density layer. *)
Lemma new_heatmap_returns w bd v hm :
  new_heatmap w bd v = Ok hm ->
  FeatureGroup building_density_name [hm] = building_density bd v.
Proof.
  unfold new_heatmap, building_density. destruct bd as [|b bd].
  - intros H. now injection H as <-.
  - destruct (folium_HeatMap w (b :: bd) v); [discriminate|].
    intros H. now injection H as <-.
Qed.

Section Run.

Variable w : World.

(** The resolver in any state: it returns, and only prints. *)
Lemma get_city_boundary_run st :
  get_city_boundary w city st = (Ok (city_boundary_of w), effect st (boundary_log w) [] []).
Proof.
  unfold city_boundary_of, boundary_log, get_city_boundary, try_catch, bindM, lift, ret.
  rewrite !print_run.
  destruct (geometries_from_place w city) as [df|e].
  - destruct (filter_polygons df) as [pf|e].
    + destruct (0 <? List.length (rows pf))%nat;
        rewrite !print_run, !effect_effect; reflexivity.
    + rewrite !print_run, !effect_effect. reflexivity.
  - rewrite !print_run, !effect_effect. reflexivity.
Qed.

Lemma city_boundary_of_error e :
  geometries_from_place w city = Raise e -> city_boundary_of w = None.
Proof.
  intros H. unfold city_boundary_of, get_city_boundary, try_catch, bindM, lift, ret.
  now rewrite print_run, H, print_run.
Qed.

Lemma add_branches_run st :
  add_branches w st = (Ok tt, effect st (branch_log w) (branch_layers w) []).
Proof.
  unfold add_branches, branch_log, branch_layers, try_catch, bindM, lift.
  destruct (load_markers w "data/branches.csv" branch_icon) as [ms|e];
    cbn [marker_log marker_layers].
  - now rewrite add_child_run, print_run, effect_effect.
  - destruct e; now rewrite print_run.
Qed.

Lemma add_competitors_run st :
  add_competitors w st = (Ok tt, effect st (competitor_log w) (competitor_layers w) []).
Proof.
  unfold add_competitors, competitor_log, competitor_layers, try_catch, bindM, lift.
  destruct (load_markers w "data/competitors.csv" competitor_icon) as [ms|e];
    cbn [marker_log marker_layers].
  - now rewrite add_child_run, print_run, effect_effect.
  - destruct e; now rewrite print_run.
Qed.

(** A run whose GeoJSON file parses, whose table pandas builds, whose heat
    map value is in range and whose heat map folium accepts ends normally
    in [final_state]. *)
Lemma main_run buildings_data max_val hm :
  parse_geojson_buildings w "data/houses.geojson" = Ok buildings_data ->
  new_dataframe w buildings_data = Ok tt ->
  heat_max_val buildings_data = Ok max_val ->
  new_heatmap w buildings_data max_val = Ok hm ->
  main w initial = (Ok tt, final_state w buildings_data max_val).
Proof.
  intros Hparse Hdf Hmax Hhm. unfold heat_max_val in Hmax.
  unfold main, bindM, lift, get_hmap. rewrite Hparse, Hdf.
  rewrite !print_run, get_city_boundary_run, add_boundary_layer_run, Hmax, Hhm.
  rewrite (new_heatmap_returns _ _ _ _ Hhm).
  rewrite add_branches_run, add_competitors_run, !add_child_run.
  rewrite !effect_effect.
  rewrite save_run, print_run, save_boundary_map_run, print_settings_run.
  rewrite !effect_effect.
  unfold effect, final_state, final_layers, initial.
  cbn [stdout hmap files app].
  rewrite <- !app_assoc, ?app_nil_r. cbn [app]. reflexivity.
Qed.

(** A GeoJSON file that does not load or parse ends the run at once. *)
Lemma main_parse_error e :
  parse_geojson_buildings w "data/houses.geojson" = Raise e ->
  main w initial = (Raise e, initial).
Proof. intros H. unfold main, bindM, lift. now rewrite H. Qed.

(** A list of buildings pandas does not build a table of ends the run
    before anything is printed. *)
Lemma main_dataframe_error buildings_data e :
  parse_geojson_buildings w "data/houses.geojson" = Ok buildings_data ->
  new_dataframe w buildings_data = Raise e ->
  main w initial = (Raise e, initial).
Proof. intros Hparse Hdf. unfold main, bindM, lift. now rewrite Hparse, Hdf. Qed.

(** A maximum weight beyond the binary64 range ends the run before any
    file is written. *)
Lemma main_heat_error buildings_data e :
  parse_geojson_buildings w "data/houses.geojson" = Ok buildings_data ->
  new_dataframe w buildings_data = Ok tt ->
  heat_max_val buildings_data = Raise e ->
  main w initial = (Raise e, aborted_state w buildings_data).
Proof.
  intros Hparse Hdf Hmax. unfold heat_max_val in Hmax.
  unfold main, bindM, lift. rewrite Hparse, Hdf.
  rewrite !print_run, get_city_boundary_run, add_boundary_layer_run, Hmax.
  rewrite !effect_effect. unfold effect, aborted_state, initial.
  cbn [stdout hmap files app]. rewrite ?app_nil_r. reflexivity.
Qed.

(** So does data the heat map constructor rejects. *)
Lemma main_heatmap_error buildings_data max_val e :
  parse_geojson_buildings w "data/houses.geojson" = Ok buildings_data ->
  new_dataframe w buildings_data = Ok tt ->
  heat_max_val buildings_data = Ok max_val ->
  new_heatmap w buildings_data max_val = Raise e ->
  main w initial = (Raise e, aborted_state w buildings_data).
Proof.
  intros Hparse Hdf Hmax Hhm. unfold heat_max_val in Hmax.
  unfold main, bindM, lift. rewrite Hparse, Hdf.
  rewrite !print_run, get_city_boundary_run, add_boundary_layer_run, Hmax, Hhm.
  rewrite !effect_effect. unfold effect, aborted_state, initial.
  cbn [stdout hmap files app]. rewrite ?app_nil_r. reflexivity.
Qed.

(** The ways a run can end: at once, on the GeoJSON file or on the table
    of buildings; at the heat map, on its [max_val] or in its constructor;
    or normally. *)
Lemma main_cases :
  (exists e,
      main w initial = (Raise e, initial)
      /\ (parse_geojson_buildings w "data/houses.geojson" = Raise e
          \/ exists buildings_data,
               parse_geojson_buildings w "data/houses.geojson" = Ok buildings_data
               /\ new_dataframe w buildings_data = Raise e))
  \/ (exists buildings_data e,
        main w initial = (Raise e, aborted_state w buildings_data)
        /\ parse_geojson_buildings w "data/houses.geojson" = Ok buildings_data
        /\ new_dataframe w buildings_data = Ok tt
        /\ (heat_max_val buildings_data = Raise e
            \/ exists max_val,
                 heat_max_val buildings_data = Ok max_val
                 /\ new_heatmap w buildings_data max_val = Raise e))
  \/ (exists buildings_data max_val hm,
        main w initial = (Ok tt, final_state w buildings_data max_val)
        /\ parse_geojson_buildings w "data/houses.geojson" = Ok buildings_data
        /\ new_dataframe w buildings_data = Ok tt
        /\ heat_max_val buildings_data = Ok max_val
        /\ new_heatmap w buildings_data max_val = Ok hm).
Proof.
  destruct (parse_geojson_buildings w "data/houses.geojson") as [bd|e] eqn:Hparse.
  - destruct (new_dataframe w bd) as [[]|e] eqn:Hdf.
    + destruct (heat_max_val bd) as [v|e] eqn:Hmax.
      * destruct (new_heatmap w bd v) as [hm|e] eqn:Hhm.
        -- right. right. exists bd, v, hm.
           split; [now apply (main_run bd v hm)|]. now repeat split.
        -- right. left. exists bd, e.
           split; [now apply (main_heatmap_error bd v)|].
           split; [reflexivity|]. split; [exact Hdf|]. right. now exists v.
      * right. left. exists bd, e.
        split; [now apply main_heat_error|].
        split; [reflexivity|]. split; [exact Hdf|]. now left.
    + left. exists e. split; [now apply (main_dataframe_error bd)|].
      right. now exists bd.
  - left. exists e. split; [now apply main_parse_error|]. now left.
Qed.

(** A run that ends normally ends in [final_state]. *)
Lemma main_normal st :
  main w initial = (Ok tt, st) ->
  exists buildings_data max_val,
    parse_geojson_buildings w "data/houses.geojson" = Ok buildings_data
    /\ heat_max_val buildings_data = Ok max_val
    /\ st = final_state w buildings_data max_val.
Proof.
  intros H.
  destruct main_cases as [(e & He & _)|[(bd & e & He & _)|(bd & v & hm & Hr & Hp & _ & Hv & _)]].
  - rewrite He in H. discriminate H.
  - rewrite He in H. discriminate H.
  - rewrite Hr in H. injection H as <-. now exists bd, v.
Qed.

(** A run that raises has written no file and has added at most the
    boundary layer to the map. *)
Lemma main_raises e st :
  main w initial = (Raise e, st) ->
  files st = [] /\ (hmap st = [] \/ hmap st = boundary_layers (city_boundary_of w)).
Proof.
  intros H.
  destruct main_cases as [(e' & He & _)|[(bd & e' & He & _)|(bd & v & hm & Hr & _)]].
  - rewrite He in H. injection H as _ <-. split; [reflexivity|now left].
  - rewrite He in H. injection H as _ <-. split; [reflexivity|now right].
  - rewrite Hr in H. discriminate H.
Qed.

(** Where a run stops, in terms of the map and the files it leaves. *)
Lemma main_state :
  (files (snd (main w initial)) = []
   /\ (hmap (snd (main w initial)) = []
       \/ hmap (snd (main w initial)) = boundary_layers (city_boundary_of w)))
  \/ exists buildings_data max_val,
       main w initial = (Ok tt, final_state w buildings_data max_val).
Proof.
  destruct (main w initial) as [[[]|e] st] eqn:H.
  - right. destruct (main_normal _ H) as (bd & v & _ & _ & ->). now exists bd, v.
  - left. exact (main_raises _ _ H).
Qed.

End Run.

(** The sample run with every input present. *)
Example full_run_layers :
  map (fun c => match c with
                | FeatureGroup name _ => name
                | LayerControl _ => "LayerControl"
                | _ => ""
                end)
      (hmap (snd (main Examples.full_world initial)))
  = [boundary_layer_name; filial_markers_name; competitor_markers_name;
     building_density_name; "LayerControl"].
Proof. vm_compute. reflexivity. Qed.

(** The sample run of a building without a position: the heat map
    constructor raises, and the run stops there. *)
Example unlocated_run :
  main Examples.unlocated_world initial =
    (Raise ValueError,
     aborted_state Examples.unlocated_world
       [ {| lat := PNone; lon := PNone; weight := 10 |} ]).
Proof. vm_compute. reflexivity. Qed.

(** C1, as amended.  For every city name and in every state the resolver
    returns and raises nothing.  When the look-up raises, the exception is
    printed and the result is [None], not the fallback rectangle.  The
    fallback rectangle of five points is the result when the look-up
    returns and the filter selects no row, and only then: a result that is
    the rectangle comes from a look-up that returned and a filter that
    selected no row, and when the filter selects rows the result is the
    table of these rows. *)
Theorem lookup_error_gives_none w city_name st :
  (exists city_boundary st', get_city_boundary w city_name st = (Ok city_boundary, st'))
  /\ (forall e,
        geometries_from_place w city_name = Raise e ->
        get_city_boundary w city_name st =
          (Ok None, effect st [SearchingBoundary city_name; BoundaryError e] [] []))
  /\ (forall polygon_city polygon_filtered,
        geometries_from_place w city_name = Ok polygon_city ->
        filter_polygons polygon_city = Ok polygon_filtered ->
        rows polygon_filtered = [] ->
        get_city_boundary w city_name st =
          (Ok (Some manual_polygon),
           effect st [SearchingBoundary city_name; PolygonsNotFound] [] []))
  /\ (forall st',
        get_city_boundary w city_name st = (Ok (Some manual_polygon), st') ->
        exists polygon_city polygon_filtered,
          geometries_from_place w city_name = Ok polygon_city
          /\ filter_polygons polygon_city = Ok polygon_filtered
          /\ rows polygon_filtered = [])
  /\ (forall polygon_city polygon_filtered,
        geometries_from_place w city_name = Ok polygon_city ->
        filter_polygons polygon_city = Ok polygon_filtered ->
        rows polygon_filtered <> [] ->
        polygon_filtered <> manual_polygon
        /\ get_city_boundary w city_name st =
             (Ok (Some polygon_filtered),
              effect st [SearchingBoundary city_name;
                         PolygonsFound (List.length (rows polygon_filtered))] [] [])).
Proof.
  assert (Hnot : forall df pf, filter_polygons df = Ok pf -> pf <> manual_polygon).
  { intros df pf Hf ->. apply filter_polygons_columns in Hf. discriminate Hf. }
  unfold get_city_boundary, try_catch, bindM, lift, ret.
  rewrite !print_run.
  split; [|split; [|split; [|split]]].
  - destruct (geometries_from_place w city_name) as [df|e].
    + destruct (filter_polygons df) as [pf|e].
      * destruct (0 <? List.length (rows pf))%nat; rewrite print_run; eauto.
      * rewrite print_run; eauto.
    + rewrite print_run; eauto.
  - intros e ->. now rewrite print_run, effect_effect.
  - intros df pf -> -> ->. cbn [List.length Nat.ltb Nat.leb].
    now rewrite print_run, effect_effect.
  - intros st'.
    destruct (geometries_from_place w city_name) as [df|e].
    + destruct (filter_polygons df) as [pf|e] eqn:Hf.
      * destruct (0 <? List.length (rows pf))%nat eqn:Hlen; rewrite print_run; intros H.
        -- injection H as Hpf _. now apply Hnot in Hf.
        -- exists df, pf. split; [reflexivity|]. split; [exact Hf|].
           apply Nat.ltb_ge in Hlen. destruct (rows pf); [reflexivity|cbn in Hlen; lia].
      * rewrite print_run. discriminate.
    + rewrite print_run. discriminate.
  - intros df pf -> Hf Hrows. split; [exact (Hnot _ _ Hf)|]. rewrite Hf.
    destruct (rows pf) as [|r rest] eqn:E; [congruence|].
    cbn [List.length Nat.ltb Nat.leb].
    now rewrite print_run, effect_effect.
Qed.

(** C1, witness: a look-up that raises a connection error. *)
Lemma lookup_error_gives_none_witness :
  get_city_boundary Examples.offline_world city initial =
    (Ok None,
     effect initial [SearchingBoundary city; BoundaryError (OtherError "ConnectionError")] [] []).
Proof.
  exact (proj1 (proj2 (lookup_error_gives_none Examples.offline_world city initial))
           (OtherError "ConnectionError") eq_refl).
Defined.

(** C1, counterexample to the claim as stated: when the look-up raises the
    result is [None], which is not the result of an empty look-up, the
    fallback rectangle. *)
Lemma lookup_error_counterexample :
  geometries_from_place Examples.offline_world city = Raise (OtherError "ConnectionError")
  /\ fst (get_city_boundary Examples.offline_world city initial) = Ok None
  /\ fst (get_city_boundary Examples.empty_lookup_world city initial) = Ok (Some manual_polygon)
  /\ @None GeoDataFrame <> Some manual_polygon.
Proof. repeat split. discriminate. Qed.

(** C2, as amended.  When the boundary look-up raises, no run writes
    [city_boundary.html] or adds a boundary layer to the map, however it
    ends.  A run that ends normally has written [index.html], and only it,
    with the map that has no boundary layer; a run that raises has written
    no file.  The run ends normally when the GeoJSON file parses, pandas
    builds the table of buildings, [max_weight * 0.4] is in the range of a
    float and folium accepts the data of the heat map. *)
Theorem lookup_error_no_boundary_map w e :
  geometries_from_place w city = Raise e ->
  written "city_boundary.html" (snd (main w initial)) = false
  /\ has_layer boundary_layer_name (hmap (snd (main w initial))) = false
  /\ (forall st,
        main w initial = (Ok tt, st) ->
        files st = [("index.html", hmap_with (hmap st))])
  /\ (forall e' st, main w initial = (Raise e', st) -> files st = [])
  /\ (forall buildings_data max_val hm,
        parse_geojson_buildings w "data/houses.geojson" = Ok buildings_data ->
        new_dataframe w buildings_data = Ok tt ->
        heat_max_val buildings_data = Ok max_val ->
        new_heatmap w buildings_data max_val = Ok hm ->
        exists st, main w initial = (Ok tt, st)).
Proof.
  intros Herr.
  pose proof (city_boundary_of_error _ _ Herr) as Hnone.
  assert (Hfinal : forall bd v,
             has_layer boundary_layer_name (hmap (final_state w bd v)) = false).
  { intros bd v. unfold final_state, final_layers. cbn [hmap]. rewrite Hnone.
    cbn [boundary_layers app]. rewrite !has_layer_app.
    unfold branch_layers, competitor_layers.
    rewrite !marker_layers_other by reflexivity. reflexivity. }
  split; [|split; [|split; [|split]]].
  - destruct (main_state w) as [[Hf _]|(bd & v & ->)].
    + unfold written. now rewrite Hf.
    + cbn [snd]. unfold written, final_state. cbn [files]. rewrite Hnone. reflexivity.
  - destruct (main_state w) as [[_ [Hm|Hm]]|(bd & v & ->)].
    + now rewrite Hm.
    + now rewrite Hm, Hnone.
    + apply Hfinal.
  - intros st H. destruct (main_normal _ _ H) as (bd & v & _ & _ & ->).
    unfold final_state. cbn [files hmap]. now rewrite Hnone.
  - intros e' st H. exact (proj1 (main_raises _ _ _ H)).
  - intros bd v hm Hparse Hdf Hmax Hhm. eexists.
    exact (main_run _ _ _ _ Hparse Hdf Hmax Hhm).
Qed.

(** C2, witness: the run without network and without CSV files; it ends
    normally and [index.html] is its only file. *)
Lemma lookup_error_no_boundary_map_witness :
  let st := snd (main Examples.offline_world initial) in
  fst (main Examples.offline_world initial) = Ok tt
  /\ written "city_boundary.html" st = false
  /\ has_layer boundary_layer_name (hmap st) = false
  /\ files st = [("index.html", hmap_with (hmap st))].
Proof.
  destruct (lookup_error_no_boundary_map Examples.offline_world
              (OtherError "ConnectionError") eq_refl) as (H1 & H2 & H3 & _).
  split; [vm_compute; reflexivity|]. split; [exact H1|]. split; [exact H2|].
  apply H3. vm_compute. reflexivity.
Defined.

(** C2, counterexample to the claim as stated: the look-up raises and
    [index.html] is not produced.  The only building of the file has the
    coordinates [[null, null]]; the error of the look-up is caught, and the
    heat map constructor raises [ValueError] before any file is written. *)
Lemma lookup_error_no_index_counterexample :
  geometries_from_place Examples.unlocated_world city = Raise (OtherError "ConnectionError")
  /\ fst (main Examples.unlocated_world initial) = Raise ValueError
  /\ written "index.html" (snd (main Examples.unlocated_world initial)) = false
  /\ files (snd (main Examples.unlocated_world initial)) = [].
Proof. vm_compute. repeat split. Qed.

(** C5, as amended.  In a run that ends normally the children of the map
    are, in this order: the boundary layer when the resolver returned a
    boundary, the branch markers when their CSV file was read and every row
    gave a marker, the competitor markers likewise, the heat map layer, and
    the layer control last; [index.html] holds the map with these
    children. *)
Theorem layers_added_in_order w st :
  main w initial = (Ok tt, st) ->
  exists buildings_data max_val,
    parse_geojson_buildings w "data/houses.geojson" = Ok buildings_data
    /\ heat_max_val buildings_data = Ok max_val
    /\ hmap st =
         boundary_layers (city_boundary_of w)
         ++ branch_layers w
         ++ competitor_layers w
         ++ [building_density buildings_data max_val; LayerControl false]
    /\ In ("index.html", hmap_with (hmap st)) (files st).
Proof.
  intros H. destruct (main_normal _ _ H) as (bd & v & Hparse & Hmax & ->).
  exists bd, v. split; [exact Hparse|]. split; [exact Hmax|].
  split; [reflexivity|]. left. reflexivity.
Qed.

(** C5, witness: the run with every input present. *)
Lemma layers_added_in_order_witness :
  exists buildings_data max_val,
    parse_geojson_buildings Examples.full_world "data/houses.geojson" = Ok buildings_data
    /\ heat_max_val buildings_data = Ok max_val
    /\ hmap (snd (main Examples.full_world initial)) =
         boundary_layers (city_boundary_of Examples.full_world)
         ++ branch_layers Examples.full_world
         ++ competitor_layers Examples.full_world
         ++ [building_density buildings_data max_val; LayerControl false]
    /\ In ("index.html", hmap_with (hmap (snd (main Examples.full_world initial))))
         (files (snd (main Examples.full_world initial))).
Proof.
  apply (layers_added_in_order Examples.full_world
           (snd (main Examples.full_world initial))).
  vm_compute. reflexivity.
Defined.

(** C5, counterexample to the claim as stated: with every input present the
    heat map layer is the fourth child of the map, after the branch markers
    (second) and the competitor markers (third), not before them. *)
Lemma heat_layer_after_markers_counterexample :
  let st := snd (main Examples.full_world initial) in
  fst (main Examples.full_world initial) = Ok tt
  /\ layer_index boundary_layer_name (hmap st) = Some 0%nat
  /\ layer_index filial_markers_name (hmap st) = Some 1%nat
  /\ layer_index competitor_markers_name (hmap st) = Some 2%nat
  /\ layer_index building_density_name (hmap st) = Some 3%nat
  /\ ~ (3 < 1)%nat.
Proof. vm_compute. repeat split. lia. Qed.

(** C9, as amended.  When the branch block fails, because
    [data/branches.csv] is absent ([FileNotFoundError]) or because reading
    it or building a marker from a row raises anything else: in every state
    in which the block is run it returns normally, prints its notice and
    leaves the map as it is; no run has a branch layer in its map, however
    it ends; and a run that ends normally has printed the notice. *)
Theorem branches_error_skips_layer w e :
  load_markers w "data/branches.csv" branch_icon = Raise e ->
  let notice :=
    match e with
    | FileNotFoundError => BranchesFileNotFound
    | _ => BranchesError e
    end in
  (forall st0, add_branches w st0 = (Ok tt, effect st0 [notice] [] []))
  /\ has_layer filial_markers_name (hmap (snd (main w initial))) = false
  /\ forall st, main w initial = (Ok tt, st) -> In notice (stdout st).
Proof.
  intros Hload notice.
  assert (Hlog : branch_log w = [notice]).
  { unfold branch_log. rewrite Hload. unfold notice. now destruct e. }
  assert (Hlay : branch_layers w = []).
  { unfold branch_layers. now rewrite Hload. }
  split; [|split].
  - intros st0. now rewrite add_branches_run, Hlog, Hlay.
  - destruct (main_state w) as [[_ [Hm|Hm]]|(bd & v & ->)].
    + now rewrite Hm.
    + rewrite Hm. now apply boundary_layers_other.
    + cbn [snd]. unfold final_state, final_layers. cbn [hmap].
      rewrite !has_layer_app, Hlay. unfold competitor_layers.
      rewrite marker_layers_other, boundary_layers_other by reflexivity.
      reflexivity.
  - intros st H. destruct (main_normal _ _ H) as (bd & v & _ & _ & ->).
    unfold final_state. cbn [stdout]. rewrite Hlog.
    cbn [app In]. do 3 right.
    apply in_or_app. right. apply in_or_app. right. now left.
Qed.

(** C9, witness: the run in which [data/branches.csv] does not exist; it
    ends normally with the notice printed. *)
Lemma branches_error_skips_layer_witness :
  let st := snd (main Examples.offline_world initial) in
  fst (main Examples.offline_world initial) = Ok tt
  /\ (forall st0,
        add_branches Examples.offline_world st0
        = (Ok tt, effect st0 [BranchesFileNotFound] [] []))
  /\ has_layer filial_markers_name (hmap st) = false
  /\ In BranchesFileNotFound (stdout st).
Proof.
  destruct (branches_error_skips_layer Examples.offline_world FileNotFoundError
              (load_markers_read_error Examples.offline_world "data/branches.csv"
                 branch_icon FileNotFoundError eq_refl)) as (H1 & H2 & H3).
  split; [vm_compute; reflexivity|]. split; [exact H1|]. split; [exact H2|].
  apply H3. vm_compute. reflexivity.
Defined.

(** C9, counterexample to the claim as stated: [data/branches.csv] is
    absent, and yet an exception escapes the program and no notice is
    printed.  The only building of the file has the coordinates
    [[null, null]]: the heat map constructor raises [ValueError] before the
    branch block is reached. *)
Lemma branches_absent_run_raises_counterexample :
  read_csv Examples.unlocated_world "data/branches.csv" = Raise FileNotFoundError
  /\ load_markers Examples.unlocated_world "data/branches.csv" branch_icon
     = Raise FileNotFoundError
  /\ fst (main Examples.unlocated_world initial) = Raise ValueError
  /\ ~ In BranchesFileNotFound (stdout (snd (main Examples.unlocated_world initial))).
Proof.
  split; [reflexivity|]. split; [reflexivity|]. split; [vm_compute; reflexivity|].
  vm_compute. intros [H|[H|[H|[H|[H|[]]]]]]; discriminate H.
Qed.

(** A table without a ['lat'] column fails the block with [KeyError]. *)
Example missing_column_fails :
  load_markers
    {| json_load := fun _ => Ok Examples.houses;
       geometries_from_place := fun _ => Raise (OtherError "ConnectionError");
       read_csv := fun _ =>
         Ok {| df_columns := ["name"; "lon"];
               df_rows := [[PStr "Central"; PInt 44]] |};
       pandas_DataFrame := Examples.builds_table;
       folium_HeatMap := Examples.checks_heatmap;
       folium_Marker := Examples.checks_marker |}
    "data/branches.csv" branch_icon = Raise KeyError.
Proof. reflexivity. Qed.

(** A table with an empty ['lat'] cell: the marker constructor raises
    [ValueError] on the NaN, and the block has no marker. *)
Example empty_cell_fails :
  load_markers
    {| json_load := fun _ => Ok Examples.houses;
       geometries_from_place := fun _ => Raise (OtherError "ConnectionError");
       read_csv := fun _ =>
         Ok {| df_columns := ["name"; "lat"; "lon"];
               df_rows := [ [PStr "Central"; PFloat (float_lit 5632 2); PInt 44];
                            [PStr "North"; PFloat S754_nan; PInt 44] ] |};
       pandas_DataFrame := Examples.builds_table;
       folium_HeatMap := Examples.checks_heatmap;
       folium_Marker := Examples.checks_marker |}
    "data/branches.csv" branch_icon = Raise ValueError.
Proof. reflexivity. Qed.

(** * Further properties *)

(** ** The parser: errors and composition *)

Lemma floors_of_no_overflow v n :
  floors_of v = Ok n -> py_int v <> Raise OverflowError.
Proof.
  unfold floors_of. intros H E. rewrite E in H.
  destruct v as [ | b | z | x | s | l | d ]; cbn in E; try discriminate E.
  - destruct x; cbn in E; try discriminate E. cbn in H. discriminate H.
  - destruct (int_of_str s); discriminate E.
Qed.

Lemma step_well_formed acc f out :
  feature_step acc f = Ok out -> well_formed f.
Proof.
  rewrite feature_step_unfold. unfold well_formed.
  destruct f; try discriminate.
  destruct (geometry_of (PDict d)) eqn:Hg; try discriminate.
  intros H. split; [now eexists|]. split; [now eexists|].
  intros Hk. rewrite Hk in H.
  destruct (unpack2 (coordinates_of (PDict d))) as [[x y]|e]; cbn [bind] in H; [|discriminate].
  destruct (properties_of (PDict d)); try discriminate.
  destruct (floors_of (levels_of (PDict d))) as [n|e] eqn:Hf; [|discriminate].
  split; [now exists x, y|]. split; [now eexists|].
  exact (floors_of_no_overflow _ _ Hf).
Qed.

Lemma feature_step_raise_any_acc acc acc' f e :
  feature_step acc f = Raise e -> feature_step acc' f = Raise e.
Proof.
  rewrite !feature_step_unfold.
  destruct f; try (intros H; exact H).
  destruct (geometry_of (PDict d)); try (intros H; exact H).
  destruct (is_kept (PDict d)); [|discriminate].
  destruct (unpack2 (coordinates_of (PDict d))) as [[x y]|e']; cbn [bind]; [|intros H; exact H].
  destruct (properties_of (PDict d)); try (intros H; exact H).
  destruct (floors_of (levels_of (PDict d))) as [n|e']; cbn [bind]; [discriminate|intros H; exact H].
Qed.

Lemma for_each_from items : forall acc,
  for_each feature_step items acc =
  bind (for_each feature_step items []) (fun out => Ok (acc ++ out)).
Proof.
  induction items as [|f items IH]; intros acc; cbn [for_each].
  - cbn [bind]. now rewrite app_nil_r.
  - destruct (feature_step [] f) as [o|e] eqn:H0.
    + rewrite (feature_step_any_acc _ acc _ _ H0).
      apply feature_step_entry in H0. cbn [app] in H0. subst o. cbn [bind].
      rewrite (IH (acc ++ entry_of f)), (IH (entry_of f)).
      destruct (for_each feature_step items []); cbn [bind]; [|reflexivity].
      now rewrite app_assoc.
    + rewrite (feature_step_raise_any_acc _ acc _ _ H0). reflexivity.
Qed.

Lemma for_each_app {S A} (body : S -> A -> result S) xs : forall ys s,
  for_each body (xs ++ ys) s = bind (for_each body xs s) (for_each body ys).
Proof.
  induction xs as [|x xs IH]; intros ys s; cbn [for_each app bind]; [reflexivity|].
  destruct (body s x); cbn [bind]; [apply IH|reflexivity].
Qed.

(** Settles [well_formed] for a concrete feature. *)
Ltac well_formed_sample :=
  split; [eexists; reflexivity|];
  split; [eexists; reflexivity|];
  intros Hk; try discriminate Hk;
  split; [do 2 eexists; reflexivity|];
  split; [eexists; reflexivity|discriminate].

(** X1.  The parser returns exactly on the collections whose ['features']
    value can be iterated and whose features are all well-formed, and then
    its output is the entries of the features in their order. *)
Theorem parse_features_returns_iff fc out :
  parse_features fc = Ok out <->
  exists items,
    features_of fc = Ok items /\ Forall well_formed items
    /\ out = flat_map entry_of items.
Proof.
  split.
  - intros H. destruct (parse_features_items _ _ H) as (items & Hitems & Hloop).
    exists items. split; [exact Hitems|]. split.
    + pose proof (for_each_steps _ _ _ Hloop) as Hsteps.
      apply Forall_forall. intros f Hf. rewrite Forall_forall in Hsteps.
      exact (step_well_formed _ _ _ (Hsteps f Hf)).
    + now apply for_each_entries in Hloop.
  - intros (items & Hitems & Hwf & ->). now apply parse_features_returns.
Qed.

(** X1, witness: the sample file of two buildings. *)
Lemma parse_features_returns_iff_witness :
  parse_features Examples.houses =
    Ok [{| lat := Examples.lat_563; lon := Examples.lon_440; weight := 50 |};
        {| lat := Examples.lat_563; lon := Examples.lon_440; weight := 10 |}].
Proof.
  apply (proj2 (parse_features_returns_iff Examples.houses _)).
  exists [Examples.point_feature Examples.lonlat (Examples.levels (PStr "5"));
          Examples.point_feature Examples.lonlat []].
  split; [reflexivity|]. split; [|reflexivity].
  repeat (apply Forall_cons || apply Forall_nil); well_formed_sample.
Defined.

(** The first feature that raises decides the exception of the parser. *)
Lemma first_error fc pre f post e :
  features_of fc = Ok (pre ++ f :: post) ->
  Forall well_formed pre ->
  feature_step [] f = Raise e ->
  parse_features fc = Raise e.
Proof.
  intros Hitems Hpre Hf. unfold parse_features. rewrite Hitems. cbn [bind].
  rewrite for_each_app.
  rewrite (for_each_returns pre []).
  - cbn [bind app for_each]. now rewrite (feature_step_raise_any_acc _ _ _ _ Hf).
  - apply Forall_forall. intros g Hg. apply well_formed_step.
    rewrite Forall_forall in Hpre. now apply Hpre.
Qed.

(** X2.  A feature whose ['geometry'] value is there but is not a [dict]
    (JSON [null], as for a feature without location) is not skipped: when
    the features before it are well-formed, the parser raises
    [AttributeError] at it and returns no building at all. *)
Theorem non_dict_geometry_raises fc pre d g post :
  features_of fc = Ok (pre ++ PDict d :: post) ->
  Forall well_formed pre ->
  lookup "geometry" d = Some g ->
  (forall gd, g <> PDict gd) ->
  parse_features fc = Raise AttributeError.
Proof.
  intros Hitems Hpre Hg Hnd.
  apply (first_error fc pre (PDict d) post); [exact Hitems|exact Hpre|].
  rewrite feature_step_unfold. unfold geometry_of. cbn [get]. rewrite Hg.
  destruct g; try reflexivity. now destruct (Hnd d0).
Qed.

(** X2, witness: a null geometry after a building that parsed. *)
Lemma non_dict_geometry_raises_witness :
  parse_features
    (Examples.collection
       [Examples.point_feature Examples.lonlat [];
        PDict [("type", PStr "Feature"); ("geometry", PNone); ("properties", PDict [])]])
  = Raise AttributeError.
Proof.
  apply (non_dict_geometry_raises _
           [Examples.point_feature Examples.lonlat []]
           [("type", PStr "Feature"); ("geometry", PNone); ("properties", PDict [])]
           PNone []).
  - reflexivity.
  - repeat (apply Forall_cons || apply Forall_nil); well_formed_sample.
  - reflexivity.
  - discriminate.
Defined.

(** X3.  The properties of a feature are read after the geometry test
    only.  A kept Point feature whose ['properties'] value is not a [dict]
    (JSON [null]) makes the parser raise [AttributeError] when the features
    before it are well-formed; a skipped feature is skipped whatever its
    properties are. *)
Theorem properties_read_when_kept :
  (forall fc pre d post p longitude latitude,
      features_of fc = Ok (pre ++ PDict d :: post) ->
      Forall well_formed pre ->
      is_kept (PDict d) = true ->
      unpack2 (coordinates_of (PDict d)) = Ok (longitude, latitude) ->
      lookup "properties" d = Some p ->
      (forall pd, p <> PDict pd) ->
      parse_features fc = Raise AttributeError)
  /\ (forall acc d g,
        geometry_of (PDict d) = PDict g ->
        is_kept (PDict d) = false ->
        feature_step acc (PDict d) = Ok acc).
Proof.
  split.
  - intros fc pre d post p x y Hitems Hpre Hk Hu Hp Hnd.
    apply (first_error fc pre (PDict d) post); [exact Hitems|exact Hpre|].
    destruct (is_kept_dicts _ Hk) as (d' & g & _ & Hg).
    rewrite feature_step_unfold, Hg, Hk, Hu. cbn [bind].
    unfold properties_of. cbn [get]. rewrite Hp.
    destruct p; try reflexivity. now destruct (Hnd d0).
  - intros acc d g Hg Hk. now rewrite feature_step_unfold, Hg, Hk.
Qed.

(** X3, witness: null properties on a Point and on a line. *)
Lemma properties_read_when_kept_witness :
  parse_features
    (Examples.collection
       [PDict [("type", PStr "Feature");
               ("geometry", PDict [("type", PStr "Point"); ("coordinates", Examples.lonlat)]);
               ("properties", PNone)]])
  = Raise AttributeError
  /\ feature_step []
       (PDict [("type", PStr "Feature");
               ("geometry", PDict [("type", PStr "LineString")]);
               ("properties", PNone)])
     = Ok [].
Proof.
  split.
  - apply (proj1 properties_read_when_kept _ []
             [("type", PStr "Feature");
              ("geometry", PDict [("type", PStr "Point"); ("coordinates", Examples.lonlat)]);
              ("properties", PNone)]
             [] PNone Examples.lon_440 Examples.lat_563).
    + reflexivity.
    + constructor.
    + reflexivity.
    + reflexivity.
    + reflexivity.
    + discriminate.
  - apply (proj2 properties_read_when_kept []
             [("type", PStr "Feature");
              ("geometry", PDict [("type", PStr "LineString")]);
              ("properties", PNone)]
             [("type", PStr "LineString")]); reflexivity.
Defined.

Lemma floors_of_error v e :
  floors_of v = Raise e ->
  e = OverflowError /\ exists s, v = PFloat (S754_infinity s).
Proof.
  unfold floors_of. intros H.
  destruct v as [ | b | z | x | s | l | d ]; cbn in H; try discriminate H.
  - destruct b; discriminate H.
  - destruct (negb (z =? 0)); discriminate H.
  - destruct x; cbn in H; try discriminate H.
    injection H as <-. split; [reflexivity|now eexists].
  - destruct s; [discriminate H|]. cbn in H.
    destruct (int_of_str (String a s)); discriminate H.
  - destruct l; discriminate H.
  - destruct d; discriminate H.
Qed.

(** X4.  Reading the floor count raises for one kind of value only: an
    infinite float (the JSON numbers [Infinity] or [1e999]), on which [int]
    raises [OverflowError], an exception the [except] clause does not list.
    For every other value the floor count is read or defaults to 1. *)
Theorem floors_of_raises v e :
  floors_of v = Raise e <->
  e = OverflowError /\ exists s, v = PFloat (S754_infinity s).
Proof.
  split; [apply floors_of_error|].
  intros (-> & s & ->). reflexivity.
Qed.

(** X4, witness: positive infinity. *)
Lemma floors_of_raises_witness :
  floors_of (PFloat (S754_infinity false)) = Raise OverflowError.
Proof.
  apply (proj2 (floors_of_raises (PFloat (S754_infinity false)) OverflowError)).
  split; [reflexivity|now exists false].
Defined.

Lemma for_each_raise {S A} (body : S -> A -> result S) items : forall acc e,
  for_each body items acc = Raise e ->
  exists f acc', In f items /\ body acc' f = Raise e.
Proof.
  induction items as [|f items IH]; intros acc e H; cbn [for_each] in H; [discriminate|].
  destruct (body acc f) as [acc'|e'] eqn:Hstep; cbn [bind] in H.
  - destruct (IH _ _ H) as (g & a & Hg & Hb). exists g, a. split; [now right|exact Hb].
  - injection H as <-. exists f, acc. split; [now left|exact Hstep].
Qed.

(** X5.  Whatever the loaded JSON value is, the parser raises nothing but
    [KeyError], [TypeError], [AttributeError], [ValueError] or
    [OverflowError]. *)
Theorem parser_exceptions fc e :
  parse_features fc = Raise e ->
  e = KeyError \/ e = TypeError \/ e = AttributeError \/ e = ValueError
  \/ e = OverflowError.
Proof.
  unfold parse_features, features_of.
  destruct (getitem fc "features") as [features|e0] eqn:Hget; cbn [bind].
  - destruct (iter features) as [items|e1] eqn:Hiter; cbn [bind].
    + intros H. destruct (for_each_raise _ _ _ _ H) as (f & acc & _ & Hstep).
      revert Hstep. rewrite feature_step_unfold.
      destruct f; try (intros H'; injection H' as <-; tauto).
      destruct (geometry_of (PDict d)); try (intros H'; injection H' as <-; tauto).
      destruct (is_kept (PDict d)); [|discriminate].
      destruct (unpack2 (coordinates_of (PDict d))) as [[x y]|e2] eqn:Hu; cbn [bind].
      * destruct (properties_of (PDict d)); try (intros H'; injection H' as <-; tauto).
        destruct (floors_of (levels_of (PDict d))) as [n|e3] eqn:Hf; cbn [bind];
          [discriminate|].
        intros H'. injection H' as <-.
        apply floors_of_error in Hf as [-> _]. tauto.
      * intros H'. injection H' as <-. unfold unpack2 in Hu.
        destruct (iter (coordinates_of (PDict d))) as [xs|e4] eqn:Hi; cbn [bind] in Hu.
        -- destruct xs as [|a [|b [|c xs]]]; try discriminate Hu;
             injection Hu as <-; tauto.
        -- injection Hu as <-.
           destruct (coordinates_of (PDict d)); cbn in Hi; try discriminate Hi;
             injection Hi as <-; tauto.
    + intros H. injection H as <-.
      destruct features; cbn in Hiter; try discriminate Hiter;
        injection Hiter as <-; tauto.
  - intros H. injection H as <-.
    destruct fc; cbn in Hget; try (injection Hget as <-; tauto).
    destruct (lookup "features" d); [discriminate Hget|injection Hget as <-; tauto].
Qed.

(** X5, witness: a collection without a [features] key. *)
Lemma parser_exceptions_witness :
  KeyError = KeyError \/ KeyError = TypeError \/ KeyError = AttributeError
  \/ KeyError = ValueError \/ KeyError = OverflowError.
Proof.
  exact (parser_exceptions (PDict [("type", PStr "FeatureCollection")]) KeyError eq_refl).
Defined.

(** X6.  Parsing composes over concatenation: for a collection whose
    features are those of a first collection followed by those of a second,
    the parser gives the output of the first followed by the output of the
    second, and raises the exception of the first of the two that raises. *)
Theorem parse_features_app fc fc1 fc2 items1 items2 :
  features_of fc1 = Ok items1 ->
  features_of fc2 = Ok items2 ->
  features_of fc = Ok (items1 ++ items2) ->
  parse_features fc =
    bind (parse_features fc1) (fun out1 =>
    bind (parse_features fc2) (fun out2 => Ok (out1 ++ out2))).
Proof.
  intros H1 H2 H. unfold parse_features. rewrite H1, H2, H. cbn [bind].
  rewrite for_each_app.
  destruct (for_each feature_step items1 []) as [out1|e]; cbn [bind]; [|reflexivity].
  apply for_each_from.
Qed.

(** X6, witness: three features split after the first. *)
Lemma parse_features_app_witness :
  parse_features
    (Examples.collection
       [Examples.point_feature Examples.lonlat (Examples.levels (PStr "5"));
        Examples.point_without_coordinates;
        Examples.point_feature Examples.lonlat []]) =
  bind (parse_features
          (Examples.collection
             [Examples.point_feature Examples.lonlat (Examples.levels (PStr "5"))]))
    (fun out1 =>
  bind (parse_features
          (Examples.collection
             [Examples.point_without_coordinates;
              Examples.point_feature Examples.lonlat []]))
    (fun out2 => Ok (out1 ++ out2))).
Proof.
  apply (parse_features_app
           (Examples.collection
              [Examples.point_feature Examples.lonlat (Examples.levels (PStr "5"));
               Examples.point_without_coordinates;
               Examples.point_feature Examples.lonlat []])
           (Examples.collection
              [Examples.point_feature Examples.lonlat (Examples.levels (PStr "5"))])
           (Examples.collection
              [Examples.point_without_coordinates;
               Examples.point_feature Examples.lonlat []])
           [Examples.point_feature Examples.lonlat (Examples.levels (PStr "5"))]
           [Examples.point_without_coordinates;
            Examples.point_feature Examples.lonlat []]); reflexivity.
Defined.

(** ** The boundary resolver: selection and failure *)

Lemma column_present df c : In c (columns df) -> column df c = Ok tt.
Proof.
  intros H. unfold column.
  replace (existsb (String.eqb c) (columns df)) with true; [reflexivity|].
  symmetry. apply existsb_exists. exists c. split; [exact H|apply String.eqb_refl].
Qed.

Lemma column_absent df c : ~ In c (columns df) -> column df c = Raise KeyError.
Proof.
  intros H. unfold column.
  destruct (existsb (String.eqb c) (columns df)) eqn:E; [|reflexivity].
  apply existsb_exists in E as (c' & Hin & Heq).
  apply String.eqb_eq in Heq. subst c'. contradiction.
Qed.

Lemma filter_polygons_present df :
  In "name" (columns df) -> In "admin_level" (columns df) ->
  filter_polygons df =
    Ok {| columns := columns df; rows := filter is_boundary_row (rows df) |}.
Proof.
  intros Hn Ha. unfold filter_polygons.
  now rewrite (column_present _ _ Hn), (column_present _ _ Ha).
Qed.

Lemma filter_polygons_absent df :
  ~ In "name" (columns df) \/ ~ In "admin_level" (columns df) ->
  filter_polygons df = Raise KeyError.
Proof.
  intros H. unfold filter_polygons.
  destruct (column df "name") as [[]|e] eqn:En.
  - destruct H as [H|H].
    + now rewrite (column_absent _ _ H) in En.
    + cbn [bind]. now rewrite (column_absent _ _ H).
  - unfold column in En. destruct (existsb _ _); [discriminate En|].
    injection En as <-. reflexivity.
Qed.

(** X7.  A boundary the resolver returns is never an empty table: it has
    at least one row and so at least one geometry, for every city name and
    every answer of the look-up. *)
Theorem resolved_boundary_nonempty w city_name st boundary st' :
  get_city_boundary w city_name st = (Ok (Some boundary), st') ->
  rows boundary <> [] /\ geometry_column boundary <> [].
Proof.
  unfold get_city_boundary, try_catch, bindM, lift, ret. rewrite !print_run.
  assert (Hgeo : rows boundary <> [] ->
                 rows boundary <> [] /\ geometry_column boundary <> []).
  { intros H. split; [exact H|]. unfold geometry_column.
    destruct (rows boundary); [congruence|discriminate]. }
  destruct (geometries_from_place w city_name) as [df|e].
  - destruct (filter_polygons df) as [pf|e].
    + destruct (0 <? List.length (rows pf))%nat eqn:Hlen; rewrite print_run;
        intros H; injection H as <- _; apply Hgeo.
      * apply Nat.ltb_lt in Hlen. destruct (rows pf); [cbn in Hlen; lia|discriminate].
      * discriminate.
    + rewrite print_run. discriminate.
  - rewrite print_run. discriminate.
Qed.

(** X7, witness: the fallback table. *)
Lemma resolved_boundary_nonempty_witness :
  rows manual_polygon <> [] /\ geometry_column manual_polygon <> [].
Proof.
  exact (resolved_boundary_nonempty Examples.empty_lookup_world city initial
           manual_polygon _ eq_refl).
Defined.

(** X8.  When the look-up returns a table that has the columns ['name'] and
    ['admin_level'] and in which some row is selected, the resolver returns
    the table of the selected rows in their order and prints their number;
    a row is selected exactly when its name contains one of the two
    spellings of the city or its administrative level is ['8'] or ['6']. *)
Theorem boundary_selection w city_name st polygon_city :
  geometries_from_place w city_name = Ok polygon_city ->
  In "name" (columns polygon_city) ->
  In "admin_level" (columns polygon_city) ->
  (exists r, In r (rows polygon_city) /\ is_boundary_row r = true) ->
  let selected := filter is_boundary_row (rows polygon_city) in
  get_city_boundary w city_name st =
    (Ok (Some {| columns := columns polygon_city; rows := selected |}),
     effect st [SearchingBoundary city_name; PolygonsFound (List.length selected)] [] [])
  /\ forall r,
       In r selected <->
       In r (rows polygon_city)
       /\ ((exists s, row_name r = Some s /\ str_contains "Нижний Новгород" s = true)
           \/ (exists s, row_name r = Some s /\ str_contains "Nizhny Novgorod" s = true)
           \/ row_admin_level r = Some "8"
           \/ row_admin_level r = Some "6").
Proof.
  intros Hlook Hn Ha (r0 & Hr0 & Hsel0) selected. split.
  - unfold get_city_boundary, try_catch, bindM, lift, ret.
    rewrite print_run, Hlook, (filter_polygons_present _ Hn Ha).
    cbn [rows]. fold selected.
    assert (Hin : In r0 selected) by (apply filter_In; now split).
    destruct selected as [|r rest] eqn:E; [destruct Hin|].
    cbn [List.length Nat.ltb Nat.leb].
    now rewrite print_run, effect_effect.
  - intros r. unfold selected. rewrite filter_In.
    unfold is_boundary_row, name_contains, admin_level_is.
    split; intros [Hin H]; (split; [exact Hin|]).
    + rewrite !orb_true_iff in H. destruct H as [[[H|H]|H]|H].
      * left. destruct (row_name r) as [s|]; [now exists s|discriminate].
      * right. left. destruct (row_name r) as [s|]; [now exists s|discriminate].
      * right. right. left. destruct (row_admin_level r) as [s|]; [|discriminate].
        apply String.eqb_eq in H. now subst.
      * right. right. right. destruct (row_admin_level r) as [s|]; [|discriminate].
        apply String.eqb_eq in H. now subst.
    + rewrite !orb_true_iff. destruct H as [(s & -> & H)|[(s & -> & H)|[-> | ->]]].
      * now left; left; left.
      * now left; left; right.
      * left. right. reflexivity.
      * right. reflexivity.
Qed.

(** X8, witness: the look-up that finds the urban district. *)
Lemma boundary_selection_witness :
  let selected := filter is_boundary_row (rows Examples.osm_table) in
  get_city_boundary Examples.full_world city initial =
    (Ok (Some {| columns := columns Examples.osm_table; rows := selected |}),
     effect initial [SearchingBoundary city; PolygonsFound (List.length selected)] [] [])
  /\ forall r,
       In r selected <->
       In r (rows Examples.osm_table)
       /\ ((exists s, row_name r = Some s /\ str_contains "Нижний Новгород" s = true)
           \/ (exists s, row_name r = Some s /\ str_contains "Nizhny Novgorod" s = true)
           \/ row_admin_level r = Some "8"
           \/ row_admin_level r = Some "6").
Proof.
  apply (boundary_selection Examples.full_world city initial Examples.osm_table).
  - reflexivity.
  - cbn. tauto.
  - cbn. tauto.
  - exists Examples.district. split; [now left|reflexivity].
Defined.

(** X9.  When the table of the look-up lacks the column ['name'] or the
    column ['admin_level'], the filter raises [KeyError] inside the [try]:
    the resolver prints the error and returns [None], whatever the rows
    are, and does not fall back to the rectangle. *)
Theorem missing_column_gives_none w city_name st polygon_city :
  geometries_from_place w city_name = Ok polygon_city ->
  ~ In "name" (columns polygon_city) \/ ~ In "admin_level" (columns polygon_city) ->
  get_city_boundary w city_name st =
    (Ok None, effect st [SearchingBoundary city_name; BoundaryError KeyError] [] []).
Proof.
  intros Hlook Hcol. unfold get_city_boundary, try_catch, bindM, lift, ret.
  rewrite print_run, Hlook, (filter_polygons_absent _ Hcol).
  now rewrite print_run, effect_effect.
Qed.

(** X9, witness: a table with a matching name but no [admin_level] column. *)
Lemma missing_column_gives_none_witness :
  get_city_boundary
    {| json_load := fun _ => Ok Examples.houses;
       geometries_from_place :=
         fun _ => Ok {| columns := ["element_type"; "osmid"; "name"];
                        rows := [ {| row_name := Some "Нижний Новгород";
                                     row_admin_level := None;
                                     row_geometry := OsmShape "POLYGON" |} ] |};
       read_csv := fun _ => Raise FileNotFoundError;
       pandas_DataFrame := Examples.builds_table;
       folium_HeatMap := Examples.checks_heatmap;
       folium_Marker := Examples.checks_marker |}
    city initial =
    (Ok None, effect initial [SearchingBoundary city; BoundaryError KeyError] [] []).
Proof.
  apply (missing_column_gives_none _ city initial
           {| columns := ["element_type"; "osmid"; "name"];
              rows := [ {| row_name := Some "Нижний Новгород";
                           row_admin_level := None;
                           row_geometry := OsmShape "POLYGON" |} ] |}).
  - reflexivity.
  - right. cbn. intros [H|[H|[H|[]]]]; discriminate H.
Defined.

(** X10.  In every world and state the resolver prints exactly two lines,
    the first one announcing the search, and leaves the map and the files
    as they are. *)
Theorem resolver_only_prints w city_name st :
  exists city_boundary line,
    get_city_boundary w city_name st =
      (Ok city_boundary, effect st [SearchingBoundary city_name; line] [] []).
Proof.
  unfold get_city_boundary, try_catch, bindM, lift, ret. rewrite print_run.
  destruct (geometries_from_place w city_name) as [df|e].
  - destruct (filter_polygons df) as [pf|e].
    + destruct (0 <? List.length (rows pf))%nat;
        rewrite print_run, effect_effect; do 2 eexists; reflexivity.
    + rewrite print_run, effect_effect; do 2 eexists; reflexivity.
  - rewrite print_run, effect_effect; do 2 eexists; reflexivity.
Qed.

(** ** The marker blocks *)

Lemma marker_step_marker w ic group row :
  marker_step w ic group row =
    match marker_of w ic row with
    | Ok m => Ok (group ++ [m])
    | Raise e => Raise e
    end.
Proof.
  unfold marker_step, marker_of, series_get.
  destruct (lookup "lat" row); [|reflexivity].
  destruct (lookup "lon" row); [|reflexivity].
  destruct (lookup "name" row); [|reflexivity].
  cbn [bind]. now destruct (new_marker w _ _ _ ic).
Qed.

Lemma marker_loop w ic rows : forall group,
  for_each (marker_step w ic) rows group =
    match markers_of w ic rows with
    | Ok ms => Ok (group ++ ms)
    | Raise e => Raise e
    end.
Proof.
  induction rows as [|row rows IH]; intros group; cbn [for_each markers_of].
  - now rewrite app_nil_r.
  - rewrite marker_step_marker.
    destruct (marker_of w ic row) as [m|e]; cbn [bind]; [|reflexivity].
    rewrite IH.
    destruct (markers_of w ic rows); [|reflexivity].
    now rewrite <- app_assoc.
Qed.

Lemma markers_of_ok w ic rows ms :
  markers_of w ic rows = Ok ms <->
  Forall2 (fun row m => marker_of w ic row = Ok m) rows ms.
Proof.
  revert ms. induction rows as [|row rows IH]; intros ms; cbn [markers_of].
  - split; [intros H; injection H as <-; constructor|intros H; now inversion H].
  - split.
    + destruct (marker_of w ic row) as [m|e] eqn:Em; [|discriminate].
      destruct (markers_of w ic rows) as [ms'|e] eqn:Ef; [|discriminate].
      intros H. injection H as <-. constructor; [exact Em|now apply IH].
    + intros H. inversion H as [|row' m rows' ms' Hm Hrest]; subst.
      rewrite Hm. apply IH in Hrest. now rewrite Hrest.
Qed.

Lemma load_markers_table w path ic table :
  read_csv w path = Ok table ->
  load_markers w path ic = markers_of w ic (iterrows table).
Proof.
  intros H. unfold load_markers. rewrite H. cbn [bind]. rewrite marker_loop.
  now destruct (markers_of w ic (iterrows table)).
Qed.

(** A row of [iterrows] has a cell under a label exactly when the label is
    a column of the table. *)
Lemma row_series_lookup k labels : forall cells,
  lookup k (row_series labels cells) = None <-> ~ In k labels.
Proof.
  induction labels as [|label labels IH]; intros cells; cbn [row_series lookup In].
  - tauto.
  - destruct (String.eqb k label) eqn:E.
    + apply String.eqb_eq in E. subst. split; [discriminate|intros H; exfalso; auto].
    + apply String.eqb_neq in E. rewrite IH. split.
      * intros H [Heq|Hin]; [now subst|auto].
      * intros H Hin. auto.
Qed.

(** X11.  A marker block builds its markers exactly when the CSV file is
    read and every row gives a marker; there is then one marker for each
    row, in the order of the rows.  A row gives a marker exactly when it
    has the columns ['lat'], ['lon'] and ['name'] and folium accepts the
    location: the marker stands at the row's position with the row's name
    as its pop-up.  A table with no row gives a layer with no marker. *)
Theorem load_markers_per_row w path ic :
  (forall markers,
      load_markers w path ic = Ok markers <->
      exists table,
        read_csv w path = Ok table
        /\ Forall2 (fun row m => marker_of w ic row = Ok m) (iterrows table) markers)
  /\ (forall row m,
        marker_of w ic row = Ok m <->
        exists latitude longitude popup,
          lookup "lat" row = Some latitude
          /\ lookup "lon" row = Some longitude
          /\ lookup "name" row = Some popup
          /\ folium_Marker w latitude longitude popup = None
          /\ m = Marker (latitude, longitude) popup ic)
  /\ (forall table,
        read_csv w path = Ok table -> df_rows table = [] ->
        load_markers w path ic = Ok []).
Proof.
  split; [|split].
  - intros markers. split.
    + unfold load_markers.
      destruct (read_csv w path) as [table|e] eqn:Hread; cbn [bind]; [|discriminate].
      rewrite marker_loop.
      destruct (markers_of w ic (iterrows table)) as [ms|e] eqn:Ef; [|discriminate].
      cbn [app]. intros H. injection H as <-. exists table.
      split; [reflexivity|now apply markers_of_ok].
    + intros (table & Hread & H). rewrite (load_markers_table _ _ _ _ Hread).
      now apply markers_of_ok.
  - intros row m. unfold marker_of, new_marker. split.
    + destruct (lookup "lat" row) as [la|]; [|discriminate].
      destruct (lookup "lon" row) as [lo|]; [|discriminate].
      destruct (lookup "name" row) as [p|]; [|discriminate].
      destruct (folium_Marker w la lo p) eqn:Hm; [discriminate|].
      intros H. injection H as <-. exists la, lo, p. now repeat split.
    + intros (la & lo & p & -> & -> & -> & -> & ->). reflexivity.
  - intros table Hread Hrows. rewrite (load_markers_table _ _ _ _ Hread).
    unfold iterrows. now rewrite Hrows.
Qed.

(** X11, witness: the branch table of one row. *)
Lemma load_markers_per_row_witness :
  load_markers Examples.full_world "data/branches.csv" branch_icon =
    Ok [Marker (PFloat (float_lit 5632 2), PFloat (float_lit 4400 2))
          (PStr "Central") branch_icon].
Proof.
  apply (proj2 (proj1 (load_markers_per_row Examples.full_world "data/branches.csv"
                         branch_icon) _)).
  exists Examples.branches_table. split; [reflexivity|].
  repeat constructor.
Defined.

(** X12.  A CSV table that has rows and lacks the column ['lat'], ['lon']
    or ['name'] makes the block raise [KeyError] at its first row, before
    any marker is built; with no row the loop reads no cell, and the block
    gives a layer with no marker whatever the columns are. *)
Theorem absent_column_fails_block w path ic table c :
  read_csv w path = Ok table ->
  In c ["lat"; "lon"; "name"] ->
  ~ In c (df_columns table) ->
  load_markers w path ic =
    match df_rows table with
    | [] => Ok []
    | _ :: _ => Raise KeyError
    end.
Proof.
  intros Hread Hc Hmiss. rewrite (load_markers_table _ _ _ _ Hread).
  unfold iterrows. destruct (df_rows table) as [|cells rest]; [reflexivity|].
  cbn [map markers_of].
  assert (Hnone : lookup c (row_series (df_columns table) cells) = None)
    by now apply row_series_lookup.
  unfold marker_of.
  destruct Hc as [<-|[<-|[<-|[]]]]; rewrite Hnone.
  - reflexivity.
  - now destruct (lookup "lat" _).
  - destruct (lookup "lat" _); [|reflexivity]. now destruct (lookup "lon" _).
Qed.

(** X12, witness: a table with a [lng] column in place of [lon]. *)
Lemma absent_column_fails_block_witness :
  load_markers
    {| json_load := fun _ => Ok Examples.houses;
       geometries_from_place := fun _ => Ok Examples.osm_table;
       read_csv := fun _ =>
         Ok {| df_columns := ["name"; "lat"; "lng"];
               df_rows := [ [PStr "Central"; PInt 56; PInt 44];
                            [PStr "North"; PInt 56; PInt 44] ] |};
       pandas_DataFrame := Examples.builds_table;
       folium_HeatMap := Examples.checks_heatmap;
       folium_Marker := Examples.checks_marker |}
    "data/branches.csv" branch_icon = Raise KeyError.
Proof.
  apply (absent_column_fails_block _ "data/branches.csv" branch_icon
           {| df_columns := ["name"; "lat"; "lng"];
              df_rows := [ [PStr "Central"; PInt 56; PInt 44];
                           [PStr "North"; PInt 56; PInt 44] ] |}
           "lon").
  - reflexivity.
  - right. left. reflexivity.
  - cbn. intros [H|[H|[H|[]]]]; discriminate H.
Defined.

(** ** The script: outcomes of a run *)

(** X13.  When the competitor block fails, because [data/competitors.csv]
    is absent or because reading it or building a marker raises anything
    else: in every state in which the block is run it returns normally,
    prints its notice and leaves the map as it is; no run has a competitor
    layer in its map; and a run that ends normally has printed the
    notice. *)
Theorem competitors_error_skips_layer w e :
  load_markers w "data/competitors.csv" competitor_icon = Raise e ->
  let notice :=
    match e with
    | FileNotFoundError => CompetitorsFileNotFound
    | _ => CompetitorsError e
    end in
  (forall st0, add_competitors w st0 = (Ok tt, effect st0 [notice] [] []))
  /\ has_layer competitor_markers_name (hmap (snd (main w initial))) = false
  /\ forall st, main w initial = (Ok tt, st) -> In notice (stdout st).
Proof.
  intros Hload notice.
  assert (Hlog : competitor_log w = [notice]).
  { unfold competitor_log. rewrite Hload. unfold notice. now destruct e. }
  assert (Hlay : competitor_layers w = []).
  { unfold competitor_layers. now rewrite Hload. }
  split; [|split].
  - intros st0. now rewrite add_competitors_run, Hlog, Hlay.
  - destruct (main_state w) as [[_ [Hm|Hm]]|(bd & v & ->)].
    + now rewrite Hm.
    + rewrite Hm. now apply boundary_layers_other.
    + cbn [snd]. unfold final_state, final_layers. cbn [hmap].
      rewrite !has_layer_app, Hlay. unfold branch_layers.
      rewrite marker_layers_other, boundary_layers_other by reflexivity.
      reflexivity.
  - intros st H. destruct (main_normal _ _ H) as (bd & v & _ & _ & ->).
    unfold final_state. cbn [stdout]. rewrite Hlog.
    cbn [app In]. do 3 right.
    apply in_or_app. right. apply in_or_app. right. apply in_or_app. right.
    now left.
Qed.

(** X13, witness: the run in which the file does not exist; it ends
    normally with the notice printed. *)
Lemma competitors_error_skips_layer_witness :
  let st := snd (main Examples.offline_world initial) in
  fst (main Examples.offline_world initial) = Ok tt
  /\ (forall st0,
        add_competitors Examples.offline_world st0
        = (Ok tt, effect st0 [CompetitorsFileNotFound] [] []))
  /\ has_layer competitor_markers_name (hmap st) = false
  /\ In CompetitorsFileNotFound (stdout st).
Proof.
  destruct (competitors_error_skips_layer Examples.offline_world FileNotFoundError
              eq_refl) as (H1 & H2 & H3).
  split; [vm_compute; reflexivity|]. split; [exact H1|]. split; [exact H2|].
  apply H3. vm_compute. reflexivity.
Defined.

Lemma marker_layers_same name r :
  has_layer name (marker_layers name r) = true <-> exists ms, r = Ok ms.
Proof.
  destruct r as [ms|e]; cbn [marker_layers has_layer existsb is_group].
  - rewrite String.eqb_refl. split; [now exists ms|reflexivity].
  - split; [discriminate|intros (ms & H); discriminate H].
Qed.

Lemma boundary_layers_same b :
  has_layer boundary_layer_name (boundary_layers b) = true <-> exists df, b = Some df.
Proof.
  destruct b as [df|]; cbn [boundary_layers has_layer existsb is_group city_boundary_layer].
  - split; [now exists df|reflexivity].
  - split; [discriminate|intros (df & H); discriminate H].
Qed.

Lemma has_layer_tail name bd v :
  has_layer name [building_density bd v; LayerControl false]
  = String.eqb building_density_name name.
Proof. cbn [has_layer existsb is_group building_density]. now rewrite !orb_false_r. Qed.

(** X14.  In a run that ends normally the map has the boundary layer
    exactly when the resolver returned a boundary, the branch layer exactly
    when the branch block built its markers, the competitor layer exactly
    when the competitor block built its markers, each of the two marker
    layers independently of the other, and the heat map layer always. *)
Theorem layers_present_iff w st :
  main w initial = (Ok tt, st) ->
  (has_layer boundary_layer_name (hmap st) = true <->
   exists boundary, city_boundary_of w = Some boundary)
  /\ (has_layer filial_markers_name (hmap st) = true <->
      exists ms, load_markers w "data/branches.csv" branch_icon = Ok ms)
  /\ (has_layer competitor_markers_name (hmap st) = true <->
      exists ms, load_markers w "data/competitors.csv" competitor_icon = Ok ms)
  /\ has_layer building_density_name (hmap st) = true.
Proof.
  intros H. destruct (main_normal _ _ H) as (bd & v & _ & _ & ->).
  unfold final_state, final_layers. cbn [hmap].
  rewrite !has_layer_app, !has_layer_tail. unfold branch_layers, competitor_layers.
  split; [|split; [|split]].
  - rewrite !marker_layers_other by reflexivity.
    change (String.eqb building_density_name boundary_layer_name) with false.
    rewrite !orb_false_r. apply boundary_layers_same.
  - rewrite boundary_layers_other, (marker_layers_other _ competitor_markers_name)
      by reflexivity.
    change (String.eqb building_density_name filial_markers_name) with false.
    rewrite !orb_false_r. cbn [orb]. apply marker_layers_same.
  - rewrite boundary_layers_other, (marker_layers_other _ filial_markers_name)
      by reflexivity.
    change (String.eqb building_density_name competitor_markers_name) with false.
    rewrite !orb_false_r. cbn [orb]. apply marker_layers_same.
  - rewrite String.eqb_refl. now rewrite !orb_true_r.
Qed.

(** X14, witness: the run with every input present. *)
Lemma layers_present_iff_witness :
  let st := snd (main Examples.full_world initial) in
  (has_layer boundary_layer_name (hmap st) = true <->
   exists boundary, city_boundary_of Examples.full_world = Some boundary)
  /\ (has_layer filial_markers_name (hmap st) = true <->
      exists ms, load_markers Examples.full_world "data/branches.csv" branch_icon = Ok ms)
  /\ (has_layer competitor_markers_name (hmap st) = true <->
      exists ms,
        load_markers Examples.full_world "data/competitors.csv" competitor_icon = Ok ms)
  /\ has_layer building_density_name (hmap st) = true.
Proof.
  apply (layers_present_iff Examples.full_world
           (snd (main Examples.full_world initial))).
  vm_compute. reflexivity.
Defined.

Lemma heat_max_val_raises bd e :
  heat_max_val bd = Raise e -> e = OverflowError.
Proof.
  unfold heat_max_val, max_weight_of, df_max.
  destruct (map weight bd) as [|x rest]; cbn [mul_float]; [discriminate|].
  unfold int_to_float.
  destruct (Z2SF (fold_left Z.max rest x)); cbn [bind]; try discriminate.
  intros H. now injection H as <-.
Qed.

(** X15.  A run ends normally exactly when the GeoJSON file loads and
    parses, pandas builds the table of the buildings, the maximum weight
    converts to a float and folium accepts the data of the heat map.  A run
    that raises has written no file.  Its exception is the one of the
    parser or of pandas, and then nothing was printed; or it is the
    [OverflowError] of the conversion or the exception of the heat map
    constructor, and then the console shows the boundary look-up.  What
    the look-up, the CSV files or their rows raise never ends a run. *)
Theorem run_outcome w :
  ((exists st, main w initial = (Ok tt, st)) <->
   exists buildings_data max_val hm,
     parse_geojson_buildings w "data/houses.geojson" = Ok buildings_data
     /\ new_dataframe w buildings_data = Ok tt
     /\ heat_max_val buildings_data = Ok max_val
     /\ new_heatmap w buildings_data max_val = Ok hm)
  /\ forall e st,
       main w initial = (Raise e, st) ->
       files st = []
       /\ ((st = initial
            /\ (parse_geojson_buildings w "data/houses.geojson" = Raise e
                \/ exists buildings_data,
                     parse_geojson_buildings w "data/houses.geojson" = Ok buildings_data
                     /\ new_dataframe w buildings_data = Raise e))
           \/ (In FetchingBoundary (stdout st)
               /\ exists buildings_data,
                    parse_geojson_buildings w "data/houses.geojson" = Ok buildings_data
                    /\ new_dataframe w buildings_data = Ok tt
                    /\ ((e = OverflowError /\ heat_max_val buildings_data = Raise e)
                        \/ exists max_val,
                             heat_max_val buildings_data = Ok max_val
                             /\ new_heatmap w buildings_data max_val = Raise e))).
Proof.
  destruct (main_cases w)
    as [(e0 & He & Hwhy)|[(bd & e0 & He & Hp & Hdf & Hwhy)
                         |(bd & v & hm & Hr & Hp & Hdf & Hv & Hhm)]].
  - rewrite He. split.
    + split; [intros (st & H); discriminate H|].
      intros (bd & v & hm & Hp & Hdf & _).
      destruct Hwhy as [Hwhy|(bd' & Hp' & Hdf')]; [congruence|].
      rewrite Hp in Hp'. injection Hp' as <-. congruence.
    + intros e st H. injection H as <- <-. split; [reflexivity|]. left. now split.
  - rewrite He. split.
    + split; [intros (st & H); discriminate H|].
      intros (bd' & v & hm & Hp' & _ & Hv & Hhm).
      rewrite Hp in Hp'. injection Hp' as <-.
      destruct Hwhy as [Hwhy|(v' & Hv' & Hhm')]; [congruence|].
      rewrite Hv in Hv'. injection Hv' as <-. congruence.
    + intros e st H. injection H as <- <-. split; [reflexivity|]. right. split.
      * unfold aborted_state. cbn [stdout app In]. auto.
      * exists bd. split; [exact Hp|]. split; [exact Hdf|].
        destruct Hwhy as [Hwhy|Hwhy]; [|now right].
        left. split; [exact (heat_max_val_raises _ _ Hwhy)|exact Hwhy].
  - rewrite Hr. split.
    + split; [intros _; now exists bd, v, hm|intros _; now eexists].
    + intros e st H. discriminate H.
Qed.

(** X15, witness: the run with every input present. *)
Lemma run_outcome_witness :
  exists st, main Examples.full_world initial = (Ok tt, st).
Proof.
  apply (proj2 (proj1 (run_outcome Examples.full_world))).
  exists [ {| lat := Examples.lat_563; lon := Examples.lon_440; weight := 50 |};
           {| lat := Examples.lat_563; lon := Examples.lon_440; weight := 10 |} ],
         (Z2SF 20).
  eexists. split; [reflexivity|]. split; [reflexivity|].
  split; vm_compute; reflexivity.
Defined.

(** X16.  When the resolver returns a boundary, a run that ends normally
    has its boundary layer as the first child of the map and has written
    two files, [index.html] with the final map and then
    [city_boundary.html] with the map of the boundary geometries. *)
Theorem resolved_boundary_outputs w st boundary :
  main w initial = (Ok tt, st) ->
  city_boundary_of w = Some boundary ->
  files st =
    [ ("index.html", hmap_with (hmap st));
      ("city_boundary.html", visualize_polygons (geometry_column boundary)) ]
  /\ (exists rest, hmap st = city_boundary_layer boundary :: rest)
  /\ In BoundaryAdded (stdout st)
  /\ In BoundaryMapSaved (stdout st).
Proof.
  intros H Hb. destruct (main_normal _ _ H) as (bd & v & _ & _ & ->).
  unfold final_state, final_layers. cbn [files hmap stdout]. rewrite Hb.
  cbn [boundary_docs boundary_layers boundary_added boundary_saved app].
  split; [reflexivity|]. split; [now eexists|]. split.
  - cbn [In]. do 3 right. apply in_or_app. right. now left.
  - cbn [In]. do 3 right. apply in_or_app. right. right.
    apply in_or_app. right. apply in_or_app. right. right. right. now left.
Qed.

(** X16, witness: the run with every input present. *)
Lemma resolved_boundary_outputs_witness :
  let st := snd (main Examples.full_world initial) in
  files st =
    [ ("index.html", hmap_with (hmap st));
      ("city_boundary.html", visualize_polygons [OsmShape "POLYGON"]) ]
  /\ (exists rest,
        hmap st =
        city_boundary_layer
          {| columns := ["element_type"; "osmid"; "name"; "admin_level"];
             rows := [Examples.district] |} :: rest)
  /\ In BoundaryAdded (stdout st)
  /\ In BoundaryMapSaved (stdout st).
Proof.
  apply (resolved_boundary_outputs Examples.full_world
           (snd (main Examples.full_world initial))
           {| columns := ["element_type"; "osmid"; "name"; "admin_level"];
              rows := [Examples.district] |}).
  - vm_compute. reflexivity.
  - reflexivity.
Defined.

(** X17.  When the look-up returns and no row is selected, the fallback
    rectangle is drawn like a boundary that was found: in a run that ends
    normally it is the first layer of the map in [index.html], and
    [city_boundary.html] is written with it. *)
Theorem fallback_rectangle_is_drawn w st polygon_city polygon_filtered :
  main w initial = (Ok tt, st) ->
  geometries_from_place w city = Ok polygon_city ->
  filter_polygons polygon_city = Ok polygon_filtered ->
  rows polygon_filtered = [] ->
  exists rest,
    hmap st =
      FeatureGroup boundary_layer_name
        [GeoJson [Polygon nizhny_novgorod_bounds] "Границы Нижнего Новгорода"
           (Some boundary_style)] :: rest
    /\ files st =
         [ ("index.html", hmap_with (hmap st));
           ("city_boundary.html", visualize_polygons [Polygon nizhny_novgorod_bounds]) ]
    /\ In PolygonsNotFound (stdout st).
Proof.
  intros H Hlook Hfilter Hrows.
  assert (Hb : city_boundary_of w = Some manual_polygon).
  { unfold city_boundary_of, get_city_boundary, try_catch, bindM, lift, ret.
    rewrite print_run, Hlook, Hfilter, Hrows. cbn [List.length Nat.ltb Nat.leb].
    now rewrite print_run. }
  assert (Hlog : boundary_log w = [SearchingBoundary city; PolygonsNotFound]).
  { unfold boundary_log, get_city_boundary, try_catch, bindM, lift, ret.
    rewrite print_run, Hlook, Hfilter, Hrows. cbn [List.length Nat.ltb Nat.leb].
    now rewrite print_run. }
  destruct (main_normal _ _ H) as (bd & v & _ & _ & ->).
  eexists.
  unfold final_state, final_layers. cbn [files hmap stdout]. rewrite Hb, Hlog.
  cbn [boundary_docs boundary_layers app].
  split; [reflexivity|]. split; [reflexivity|].
  cbn [In]. do 4 right. now left.
Qed.

(** X17, witness: the look-up that returns no row. *)
Lemma fallback_rectangle_is_drawn_witness :
  let st := snd (main Examples.empty_lookup_world initial) in
  exists rest,
    hmap st =
      FeatureGroup boundary_layer_name
        [GeoJson [Polygon nizhny_novgorod_bounds] "Границы Нижнего Новгорода"
           (Some boundary_style)] :: rest
    /\ files st =
         [ ("index.html", hmap_with (hmap st));
           ("city_boundary.html", visualize_polygons [Polygon nizhny_novgorod_bounds]) ]
    /\ In PolygonsNotFound (stdout st).
Proof.
  apply (fallback_rectangle_is_drawn Examples.empty_lookup_world
           (snd (main Examples.empty_lookup_world initial))
           {| columns := ["name"; "admin_level"]; rows := [] |}
           {| columns := ["name"; "admin_level"]; rows := [] |}).
  - vm_compute. reflexivity.
  - reflexivity.
  - reflexivity.
  - reflexivity.
Defined.

(** X18.  A GeoJSON file in which every feature is skipped gives no
    building: the maximum weight is NaN, so is the [max_val] of the heat
    map, and the run still ends normally, with an empty heat map layer in
    [index.html]. *)
Theorem no_point_features_run w fc items :
  json_load w "data/houses.geojson" = Ok fc ->
  features_of fc = Ok items ->
  Forall (fun f => well_formed f /\ is_kept f = false) items ->
  exists st,
    main w initial = (Ok tt, st)
    /\ In (BuildingsProcessed 0) (stdout st)
    /\ In (MaxWeight (PFloat S754_nan)) (stdout st)
    /\ In (building_density [] S754_nan) (hmap st)
    /\ written "index.html" st = true.
Proof.
  intros Hload Hitems Hall.
  assert (Hparse : parse_geojson_buildings w "data/houses.geojson" = Ok []).
  { unfold parse_geojson_buildings. rewrite Hload. cbn [bind].
    rewrite (parse_features_returns fc items Hitems).
    - f_equal. clear Hitems. induction Hall as [|f items [_ Hk] _ IH]; [reflexivity|].
      cbn [flat_map]. rewrite IH. unfold entry_of. now rewrite Hk.
    - apply Forall_forall. intros f Hf. rewrite Forall_forall in Hall.
      now apply Hall. }
  exists (final_state w [] S754_nan).
  split; [exact (main_run w [] S754_nan _ Hparse eq_refl eq_refl eq_refl)|].
  unfold final_state, final_layers, written. cbn [files hmap stdout existsb fst].
  split; [now left|]. split; [right; now left|]. split.
  - apply in_or_app. right. apply in_or_app. right. apply in_or_app. right. now left.
  - reflexivity.
Qed.

(** X18, witness: a file whose only feature has no coordinates. *)
Lemma no_point_features_run_witness :
  exists st,
    main {| json_load := fun _ => Ok (Examples.collection [Examples.point_without_coordinates]);
            geometries_from_place := fun _ => Ok Examples.osm_table;
            read_csv := fun _ => Raise FileNotFoundError;
            pandas_DataFrame := Examples.builds_table;
            folium_HeatMap := Examples.checks_heatmap;
            folium_Marker := Examples.checks_marker |} initial = (Ok tt, st)
    /\ In (BuildingsProcessed 0) (stdout st)
    /\ In (MaxWeight (PFloat S754_nan)) (stdout st)
    /\ In (building_density [] S754_nan) (hmap st)
    /\ written "index.html" st = true.
Proof.
  apply (no_point_features_run _
           (Examples.collection [Examples.point_without_coordinates])
           [Examples.point_without_coordinates]).
  - reflexivity.
  - reflexivity.
  - constructor; [|constructor]. split; [|reflexivity].
    split; [eexists; reflexivity|]. split; [eexists; reflexivity|]. discriminate.
Defined.
